(** * Lead enrichment bot: a shallow embedding of [CompanyEnricher]

    The Python class [CompanyEnricher] (lead_enrichment_bot.py) and the
    upload gate of the Streamlit front end (streamlit_web_interface.py) are
    embedded as Rocq functions.

    - Python [str] values are [string]s, one [ascii] per character, read as
      the code points 0..255 (Latin-1); [len] is [String.length].
    - Exceptions are values of [exn]; a computation that may raise returns an
      [outcome].  Only subclasses of [Exception] are modelled.
    - Network, file system, clock and the third-party parsers are the fields
      of a [World]; code that talks to them runs in the state monad [M] over
      the world's state, so that effects are visible as state changes.
    - A [dict] is an association list in insertion order, as in Python.
    - A table read from a CSV file carries the label of each row: both
      batch loops compute [idx + 1] from it before they enter their [try]. *)

From Stdlib Require Import String Ascii List Bool Arith ZArith Lia.
From Stdlib Require Import DecimalString.
Import ListNotations.

Local Open Scope list_scope.
Local Open Scope string_scope.

(** ** Python text operations *)

Module PyStr.

Definition code (c : ascii) : nat := nat_of_ascii c.

Definition between (lo hi n : nat) : bool := Nat.leb lo n && Nat.leb n hi.

(** [str.isspace] on a single character. *)
Definition is_space (c : ascii) : bool :=
  let n := code c in
  between 9 13 n || between 28 32 n || Nat.eqb n 133 || Nat.eqb n 160.

(** The class [\w] of [re] for [str] patterns: alphanumeric or underscore. *)
Definition is_word (c : ascii) : bool :=
  let n := code c in
  between 48 57 n || between 65 90 n || between 97 122 n || Nat.eqb n 95
  || Nat.eqb n 170 || Nat.eqb n 178 || Nat.eqb n 179 || Nat.eqb n 181
  || between 185 190 n && negb (Nat.eqb n 187)
  || between 192 214 n || between 216 246 n || between 248 255 n.

(** Line boundaries of [str.splitlines] ("\r\n" is handled by the caller). *)
Definition is_linebreak (c : ascii) : bool :=
  let n := code c in
  between 10 13 n || between 28 30 n || Nat.eqb n 133.

Definition lower_char (c : ascii) : ascii :=
  let n := code c in
  if between 65 90 n || between 192 214 n || between 216 222 n
  then ascii_of_nat (n + 32) else c.

(** [s.lower()] *)
Fixpoint lower (s : string) : string :=
  match s with
  | EmptyString => EmptyString
  | String c r => String (lower_char c) (lower r)
  end.

(** [needle in hay] *)
Fixpoint contains (needle hay : string) : bool :=
  match hay with
  | EmptyString => prefix needle EmptyString
  | String _ r => prefix needle hay || contains needle r
  end.

(** [s.startswith(p)] *)
Definition startswith (p s : string) : bool := prefix p s.

Fixpoint filter_chars (keep : ascii -> bool) (s : string) : string :=
  match s with
  | EmptyString => EmptyString
  | String c r => if keep c then String c (filter_chars keep r)
                  else filter_chars keep r
  end.

(** [re.sub(r'[^\w\s]', '', s)]: every character that is neither a word
    character nor white space is deleted. *)
Definition re_sub_nonword (s : string) : string :=
  filter_chars (fun c => is_word c || is_space c) s.

(** [s.replace(old, new)] for a non-empty [old]: the occurrences of [old]
    are replaced from left to right, without overlap.  [skip] counts the
    characters of an occurrence still to be dropped. *)
Fixpoint replace_from (old new : string) (skip : nat) (s : string) : string :=
  match s with
  | EmptyString => EmptyString
  | String c r =>
      match skip with
      | S k => replace_from old new k r
      | O => if prefix old s
             then new ++ replace_from old new (String.length old - 1) r
             else String c (replace_from old new 0 r)
      end
  end.

Definition replace (old new s : string) : string := replace_from old new 0 s.

(** [s.lstrip()], [s.rstrip()], [s.strip()] *)
Fixpoint lstrip (s : string) : string :=
  match s with
  | EmptyString => EmptyString
  | String c r => if is_space c then lstrip r else s
  end.

Fixpoint rstrip (s : string) : string :=
  match s with
  | EmptyString => EmptyString
  | String c r =>
      match rstrip r with
      | EmptyString => if is_space c then EmptyString
                       else String c EmptyString
      | r' => String c r'
      end
  end.

Definition strip (s : string) : string := rstrip (lstrip s).

(** [s.splitlines()]: [cur] is the line read so far, reversed. *)
Fixpoint rev_string (acc s : string) : string :=
  match s with
  | EmptyString => acc
  | String c r => rev_string (String c acc) r
  end.

Fixpoint splitlines_from (cur : string) (after_cr : bool) (s : string)
  : list string :=
  match s with
  | EmptyString =>
      match cur with
      | EmptyString => []
      | _ => [rev_string EmptyString cur]
      end
  | String c r =>
      if after_cr && Nat.eqb (code c) 10 then splitlines_from cur false r
      else if is_linebreak c
      then rev_string EmptyString cur
             :: splitlines_from EmptyString (Nat.eqb (code c) 13) r
      else splitlines_from (String c cur) false r
  end.

Definition splitlines (s : string) : list string :=
  splitlines_from EmptyString false s.

(** [s.split("  ")]: split at each pair of blanks, from left to right. *)
Fixpoint split2_from (cur : string) (skip : bool) (s : string) : list string :=
  match s with
  | EmptyString => [rev_string EmptyString cur]
  | String c r =>
      if skip then split2_from cur false r
      else if prefix "  " s
      then rev_string EmptyString cur :: split2_from EmptyString true r
      else split2_from (String c cur) false r
  end.

Definition split_two_blanks (s : string) : list string :=
  split2_from EmptyString false s.

(** [sep.join(parts)] *)
Fixpoint join (sep : string) (parts : list string) : string :=
  match parts with
  | [] => EmptyString
  | [p] => p
  | p :: rest => p ++ sep ++ join sep rest
  end.

(** [s[:n]] *)
Definition take (n : nat) (s : string) : string := substring 0 n s.

(** truthiness of a [str] *)
Definition nonempty (s : string) : bool :=
  match s with EmptyString => false | _ => true end.

(** the character [chr(34)] and the line feed, for building literals *)
Definition dq : string := String (ascii_of_nat 34) EmptyString.
Definition nl : string := String (ascii_of_nat 10) EmptyString.
Definition quoted (s : string) : string := dq ++ s ++ dq.

(** [str(n)] for an [int] *)
Definition of_Z (z : Z) : string := NilZero.string_of_int (Z.to_int z).

End PyStr.

(** ** Python values, exceptions, dictionaries *)

(** The exceptions the program can meet; all derive from [Exception].
    [LibraryError] stands for whatever requests, bs4, json, pandas or the
    operating system raise (timeouts, HTTP errors, JSONDecodeError, ...). *)
Inductive exn : Type :=
| TypeError
| AttributeError
| KeyError
| IndexError
| ValueError (msg : string)
| FileNotFoundError
| LibraryError (name : string).

Inductive outcome (A : Type) : Type :=
| Ok (a : A)
| Raise (e : exn).
Arguments Ok {A} a.
Arguments Raise {A} e.

(** What [json.loads] can build, and what a record field can hold.  A
    number is carried as the text [str()] gives for it. *)
#[warnings="-register-all"]
Inductive value : Type :=
| VNone
| VBool (b : bool)
| VNum (shown : string)
| VStr (s : string)
| VList (items : list value)
| VDict (members : list (string * value)).

(** A cell of the input table, as [row['company_name']] yields it: a [str],
    or a numpy scalar (an int64 or float64 column, or NaN for an empty cell)
    carried as the text [str()] gives for it. *)
Inductive cell : Type :=
| Str (s : string)
| Num (shown : string).

Definition value_of_cell (c : cell) : value :=
  match c with
  | Str s => VStr s
  | Num shown => VNum shown
  end.

(** [f"{c}"] *)
Definition format_cell (c : cell) : string :=
  match c with
  | Str s => s
  | Num shown => shown
  end.

Module Dict.

Definition t : Type := list (string * value).

(** [d.get(k)] as an option *)
Fixpoint lookup (k : string) (d : t) : option value :=
  match d with
  | [] => None
  | (k', v) :: r => if String.eqb k k' then Some v else lookup k r
  end.

(** [d.get(k, default)] *)
Definition get (k : string) (default : value) (d : t) : value :=
  match lookup k d with
  | Some v => v
  | None => default
  end.

(** [d[k] = v]: an existing key keeps its place, a new key goes last. *)
Fixpoint set (k : string) (v : value) (d : t) : t :=
  match d with
  | [] => [(k, v)]
  | (k', v') :: r =>
      if String.eqb k k' then (k', v) :: r else (k', v') :: set k v r
  end.

(** [d.update(other)] *)
Definition update (other : t) (d : t) : t :=
  fold_left (fun acc kv => set (fst kv) (snd kv) acc) other d.

(** [list(d.keys())] *)
Definition keys (d : t) : list string := map fst d.

End Dict.

(** ** The rule-based analysis (pure) *)

Definition technology_keywords : list string :=
  ["software"; "tech"; "ai"; "saas"; "app"].
Definition finance_keywords : list string :=
  ["financial"; "banking"; "fintech"].
Definition healthcare_keywords : list string :=
  ["health"; "medical"; "healthcare"].
Definition retail_keywords : list string :=
  ["retail"; "ecommerce"; "shopping"].

(** [any(keyword in text for keyword in keywords)] *)
Definition any_keyword (keywords : list string) (text : string) : bool :=
  existsb (fun keyword => PyStr.contains keyword text) keywords.

Definition detect_industry (website_content : string) : string :=
  let content_lower := PyStr.lower website_content in
  if any_keyword technology_keywords content_lower then "Technology"
  else if any_keyword finance_keywords content_lower then "Finance"
  else if any_keyword healthcare_keywords content_lower then "Healthcare"
  else if any_keyword retail_keywords content_lower then "Retail"
  else "Business Services".

Definition estimate_size (website_content : string) : string :=
  if Nat.ltb 2000 (String.length website_content) then "large"
  else if Nat.ltb 1000 (String.length website_content) then "medium"
  else "small".

(** [CompanyEnricher.fallback_analysis]; [website_content] is a [str]. *)
Definition fallback_analysis (company_name : cell) (website_content : string)
  : Dict.t :=
  let industry := detect_industry website_content in
  let company_size := estimate_size website_content in
  [ ("summary",
      VStr (format_cell company_name ++ " is a " ++ PyStr.lower industry
            ++ " company."));
    ("target_customer", VStr "Businesses and consumers");
    ("industry", VStr industry);
    ("company_size", VStr company_size);
    ("automation_pitch",
      VStr ("AI chatbot and process automation for "
            ++ format_cell company_name)) ].

(** [self.fallback_analysis(company_name, company_name)]: the name stands in
    for the content, and [website_content.lower()] raises on a value that
    is not a [str]. *)
Definition fallback_analysis_of_name (company_name : cell) : outcome Dict.t :=
  match company_name with
  | Str s => Ok (fallback_analysis company_name s)
  | Num _ => Raise AttributeError
  end.

(** ** Picking the reply out of a generation backend's answer *)

(** [v[k]] for a string key *)
Definition subscript_key (v : value) (k : string) : outcome value :=
  match v with
  | VDict d =>
      match Dict.lookup k d with
      | Some x => Ok x
      | None => Raise KeyError
      end
  | _ => Raise TypeError
  end.

(** [v[i]] for a non-negative integer *)
Definition subscript_index (v : value) (i : nat) : outcome value :=
  match v with
  | VList l =>
      match nth_error l i with
      | Some x => Ok x
      | None => Raise IndexError
      end
  | VStr s =>
      match String.get i s with
      | Some c => Ok (VStr (String c EmptyString))
      | None => Raise IndexError
      end
  | VDict _ => Raise KeyError
  | _ => Raise TypeError
  end.

Definition and_then {A B} (r : outcome A) (k : A -> outcome B) : outcome B :=
  match r with
  | Ok a => k a
  | Raise e => Raise e
  end.

(** [result['candidates'][0]['content']['parts'][0]['text']] *)
Definition gemini_reply (result : value) : outcome value :=
  and_then (subscript_key result "candidates") (fun v1 =>
  and_then (subscript_index v1 0) (fun v2 =>
  and_then (subscript_key v2 "content") (fun v3 =>
  and_then (subscript_key v3 "parts") (fun v4 =>
  and_then (subscript_index v4 0) (fun v5 =>
  subscript_key v5 "text"))))).

(** [result['choices'][0]['message']['content']] *)
Definition openai_reply (result : value) : outcome value :=
  and_then (subscript_key result "choices") (fun v1 =>
  and_then (subscript_index v1 0) (fun v2 =>
  and_then (subscript_key v2 "message") (fun v3 =>
  subscript_key v3 "content"))).

(** [re.search(r'\{.*\}', text, re.DOTALL)]: with DOTALL the greedy [.*]
    runs to the end, so the match goes from the first opening brace to the
    last closing brace after it. *)
Fixpoint from_open_brace (s : string) : option string :=
  match s with
  | EmptyString => None
  | String c r => if Nat.eqb (PyStr.code c) 123 then Some s
                  else from_open_brace r
  end.

Fixpoint upto_close_brace (s : string) : option string :=
  match s with
  | EmptyString => None
  | String c r =>
      match upto_close_brace r with
      | Some p => Some (String c p)
      | None => if Nat.eqb (PyStr.code c) 125 then Some (String c EmptyString)
                else None
      end
  end.

Definition re_search_braces (text : string) : option string :=
  match from_open_brace text with
  | Some (String c r) =>
      match upto_close_brace r with
      | Some p => Some (String c p)
      | None => None
      end
  | _ => None
  end.

(** ** Effects: a state monad with exceptions *)

Definition M (S A : Type) : Type := S -> outcome A * S.

Definition ret {S A} (a : A) : M S A := fun s => (Ok a, s).

Definition raise {S A} (e : exn) : M S A := fun s => (Raise e, s).

Definition bind {S A B} (m : M S A) (k : A -> M S B) : M S B :=
  fun s =>
    match m s with
    | (Ok a, s') => k a s'
    | (Raise e, s') => (Raise e, s')
    end.

Definition lift {S A} (r : outcome A) : M S A := fun s => (r, s).

(** [try: body  except Exception: handler]; what [body] did to the state
    before it raised stays done. *)
Definition try_except {S A} (body : M S A) (handler : exn -> M S A) : M S A :=
  fun s =>
    match body s with
    | (Ok a, s') => (Ok a, s')
    | (Raise e, s') => handler e s'
    end.

(** [try: body  except SomeClass: handler] *)
Definition try_except_only {S A} (caught : exn -> bool)
  (body : M S A) (handler : exn -> M S A) : M S A :=
  fun s =>
    match body s with
    | (Ok a, s') => (Ok a, s')
    | (Raise e, s') => if caught e then handler e s' else (Raise e, s')
    end.

Notation "x <- m ;; k" := (bind m (fun x => k))
  (at level 61, m at next level, right associativity).
Notation "m ;;; k" := (bind m (fun _ => k))
  (at level 61, right associativity).

(** ** The outside world *)

(** A [requests.Response], as far as the program looks at it. *)
Record response : Type := {
  status_code : Z;
  body : string
}.

(** [response.raise_for_status()] *)
Definition raise_for_status (r : response) : outcome unit :=
  if (400 <=? status_code r)%Z && (status_code r <? 600)%Z
  then Raise (LibraryError "HTTPError")
  else Ok tt.

(** The label of a row of a [DataFrame].  [pd.read_csv] numbers the rows
    0, 1, 2, ... unless the data lines have more fields than the header:
    with one field more, the first field of each line is the label of its
    row, an int (a bool counts as the int 1 or 0), a float (carried as its
    text) or a [str]; with several fields more, the label is the tuple of
    the first fields. *)
Inductive label : Type :=
| IntLabel (i : Z)
| FloatLabel (shown : string)
| StrLabel (s : string)
| TupleLabel (parts : list cell).

(** A [DataFrame] read from a CSV file: column names, rows of cells, and
    the label of the row at each position. *)
Record table : Type := {
  columns : list string;
  rows : list (list cell);
  index : nat -> label
}.

(** the default index of pandas, a RangeIndex *)
Definition range_index (position : nat) : label := IntLabel (Z.of_nat position).

(** [df.iterrows()]: the rows in order, each with its label *)
Fixpoint iterrows_from (df : table) (position : nat) (rest : list (list cell))
  : list (label * list cell) :=
  match rest with
  | [] => []
  | row :: rest' =>
      (index df position, row) :: iterrows_from df (S position) rest'
  end.

Definition iterrows (df : table) : list (label * list cell) :=
  iterrows_from df 0 (rows df).

(** [idx + 1], for its effect: TypeError on a label that is a [str] or a
    tuple *)
Definition plus_one (idx : label) : outcome unit :=
  match idx with
  | IntLabel _ | FloatLabel _ => Ok tt
  | StrLabel _ | TupleLabel _ => Raise TypeError
  end.

(** A [DataFrame] built from records: the column names, and one row for
    each record, kept as the record it was built from.  The dtype pandas
    gives a column, and with it the stored form of a value (None as NaN,
    1 as 1.0), is not modelled. *)
Record frame : Type := {
  fcolumns : list string;
  frows : list Dict.t
}.

(** Everything the program does not compute itself.  [W] is the state of
    the world; requests carry the session's fixed headers and time-outs.
    Durations are in milliseconds. *)
Record World (W : Type) : Type := {
  session_head : string -> M W response;
  session_get : string -> M W response;
  requests_post : string -> list (string * string) -> value -> M W response;
  time_sleep : Z -> W -> W;
  time_time : W -> Z * W;
  read_csv : string -> M W table;
  to_csv : frame -> string -> M W unit;
  (** [json.loads] *)
  json_loads : string -> outcome value;
  (** [BeautifulSoup(content, 'html.parser')], the script, style, nav,
      footer and header elements removed, then [get_text()] *)
  visible_text : string -> outcome string
}.
Arguments session_head {W}.
Arguments session_get {W}.
Arguments requests_post {W}.
Arguments time_sleep {W}.
Arguments time_time {W}.
Arguments read_csv {W}.
Arguments to_csv {W}.
Arguments json_loads {W}.
Arguments visible_text {W}.

(** [pd.DataFrame(records)]: the columns are the keys in order of first
    appearance, and there is one row for each record, in order. *)
Definition add_column (cols : list string) (k : string) : list string :=
  if existsb (String.eqb k) cols then cols else (cols ++ [k])%list.

Definition DataFrame (records : list Dict.t) : frame :=
  let cols :=
    fold_left (fun acc d => fold_left add_column (Dict.keys d) acc)
              records [] in
  {| fcolumns := cols; frows := records |}.

(** ['name' in df.columns] *)
Definition has_column (name : string) (df : table) : bool :=
  existsb (String.eqb name) (columns df).

Fixpoint index_of (name : string) (cols : list string) : option nat :=
  match cols with
  | [] => None
  | c :: r => if String.eqb name c then Some 0
              else option_map S (index_of name r)
  end.

(** [row[name]]; a row shorter than the header is padded with NaN. *)
Definition row_get (df : table) (row : list cell) (name : string)
  : outcome cell :=
  match index_of name (columns df) with
  | Some i => Ok (nth i row (Num "nan"))
  | None => Raise KeyError
  end.

(** ** [class CompanyEnricher] *)

Record CompanyEnricher : Type := {
  gemini_api_key : option string;
  openai_api_key : option string
}.

(** truthiness of a key: [None] and the empty string count as absent *)
Definition configured (key : option string) : bool :=
  match key with
  | Some k => PyStr.nonempty k
  | None => false
  end.

Definition key_text (key : option string) : string :=
  match key with
  | Some k => k
  | None => "None"
  end.

Definition seven_fields : list string :=
  ["company_name"; "website"; "industry"; "company_size";
   "summary_from_llm"; "target_customer"; "automation_pitch_from_llm"].

Definition blanks (n : nat) : string :=
  string_of_list_ascii (repeat " "%char n).

Definition prompt_line (indent : nat) (text : string) : string :=
  blanks indent ++ text ++ PyStr.nl.

Definition prompt_field (name description tail : string) : string :=
  prompt_line 16
    (PyStr.quoted name ++ ": " ++ PyStr.quoted description ++ tail).

Definition gemini_prompt (company_name : cell) (website_content : string)
  : string :=
  PyStr.nl
  ++ prompt_line 12 ("Company: " ++ format_cell company_name)
  ++ prompt_line 12 ("Content: " ++ PyStr.take 1500 website_content)
  ++ prompt_line 12 EmptyString
  ++ prompt_line 12 "Provide JSON only:"
  ++ prompt_line 12 "{"
  ++ prompt_field "summary" "Brief 1-sentence summary" ","
  ++ prompt_field "target_customer" "Main target market" ", "
  ++ prompt_field "industry" "Industry category" ","
  ++ prompt_field "company_size" "startup/small/medium/large" ","
  ++ prompt_field "automation_pitch" "Quick AI automation idea" EmptyString
  ++ prompt_line 12 "}"
  ++ blanks 12.

Definition openai_prompt (company_name : cell) (website_content : string)
  : string :=
  PyStr.nl
  ++ prompt_line 12 ("Company: " ++ format_cell company_name)
  ++ prompt_line 12 ("Content: " ++ PyStr.take 1500 website_content)
  ++ prompt_line 12 EmptyString
  ++ prompt_line 12 "JSON response only:"
  ++ prompt_line 12 "{"
  ++ prompt_field "summary" "Brief summary" ","
  ++ prompt_field "target_customer" "Main target" ","
  ++ prompt_field "industry" "Industry" ","
  ++ prompt_field "company_size" "startup/small/medium/large" ", "
  ++ prompt_field "automation_pitch" "AI automation idea" EmptyString
  ++ prompt_line 12 "}"
  ++ blanks 12.

Definition gemini_payload (prompt : string) : value :=
  VDict [ ("contents",
            VList [VDict [("parts", VList [VDict [("text", VStr prompt)]])]]);
          ("generationConfig",
            VDict [("temperature", VNum "0.3");
                   ("maxOutputTokens", VNum "300")]) ].

Definition openai_payload (prompt : string) : value :=
  VDict [ ("model", VStr "gpt-3.5-turbo");
          ("messages",
            VList [VDict [("role", VStr "user"); ("content", VStr prompt)]]);
          ("temperature", VNum "0.3");
          ("max_tokens", VNum "300") ].

Section Enricher.

Context {W : Type} (world : World W).
Variable self : CompanyEnricher.

(** [is_website_accessible]: the bare [except:] turns every exception of
    the probe into [False]. *)
Definition is_website_accessible (url : string) : M W bool :=
  try_except
    (response <- session_head world url ;;
     ret (Z.eqb (status_code response) 200))
    (fun _ => ret false).

(** The [for pattern in domain_patterns] loop of [find_company_website];
    [Some url] is the early [return test_url]. *)
Fixpoint first_accessible (domain_patterns : list string)
  : M W (option string) :=
  match domain_patterns with
  | [] => ret None
  | pattern :: rest =>
      let test_url :=
        if negb (PyStr.startswith "www" pattern)
        then "https://" ++ pattern else "https://" ++ pattern in
      accessible <- is_website_accessible test_url ;;
      if accessible then ret (Some test_url) else first_accessible rest
  end.

(** [clean_name.lower().replace(' ', '')] *)
Definition squeeze (name : string) : string :=
  PyStr.replace " " EmptyString (PyStr.lower name).

(** [find_company_website]: [re.sub] raises TypeError on a name that is not
    a [str]; the handler calls [company_name.lower()], which raises
    AttributeError on such a name. *)
Definition find_company_website (company_name : cell) : M W string :=
  try_except
    (match company_name with
     | Num _ => raise TypeError
     | Str name =>
         let clean_name := PyStr.re_sub_nonword name in
         let domain_patterns :=
           [ squeeze clean_name ++ ".com";
             squeeze clean_name ++ ".co";
             squeeze clean_name ++ ".io";
             "www." ++ squeeze clean_name ++ ".com" ] in
         found <- first_accessible domain_patterns ;;
         match found with
         | Some test_url => ret test_url
         | None => ret ("https://www." ++ squeeze clean_name ++ ".com")
         end
     end)
    (fun _ =>
       match company_name with
       | Str name => ret ("https://www." ++ squeeze name ++ ".com")
       | Num _ => raise AttributeError
       end).

(** The clean-up of [scrape_website_content]: lines stripped, each line cut
    at double blanks, the pieces stripped, the non-empty ones joined. *)
Definition clean_text (text : string) : string :=
  let lines := map PyStr.strip (PyStr.splitlines text) in
  let chunks :=
    flat_map (fun line => map PyStr.strip (PyStr.split_two_blanks line))
             lines in
  PyStr.join " " (filter PyStr.nonempty chunks).

Definition scrape_website_content (url : string) : M W string :=
  try_except
    (response <- session_get world url ;;
     lift (raise_for_status response) ;;;
     text <- lift (visible_text world (body response)) ;;
     let text := clean_text text in
     ret (if Nat.ltb 2000 (String.length text)
          then PyStr.take 2000 text else text))
    (fun _ => ret EmptyString).

(** The part of the two model-backed analyses after the reply has been
    picked out of the answer: [re.search] needs a [str]. *)
Definition parse_reply (reply : value) (otherwise : value) : M W value :=
  match reply with
  | VStr text =>
      match re_search_braces text with
      | Some fragment =>
          analysis <- lift (json_loads world fragment) ;;
          ret analysis
      | None => ret otherwise
      end
  | _ => raise TypeError
  end.

(** the address and the headers of the two generation backends *)
Definition gemini_url : string :=
  "https://generativelanguage.googleapis.com/v1beta/models/gemini-pro:generateContent?key="
  ++ key_text (gemini_api_key self).

Definition openai_url : string := "https://api.openai.com/v1/chat/completions".

Definition openai_headers : list (string * string) :=
  [ ("Authorization", "Bearer " ++ key_text (openai_api_key self));
    ("Content-Type", "application/json") ].

Definition analyze_with_gemini (company_name : cell) (website_content : string)
  : M W value :=
  if negb (configured (gemini_api_key self))
  then ret (VDict (fallback_analysis company_name website_content))
  else
    try_except
      (let url := gemini_url in
       let prompt := gemini_prompt company_name website_content in
       let payload := gemini_payload prompt in
       response <- requests_post world url [] payload ;;
       lift (raise_for_status response) ;;;
       result <- lift (json_loads world (body response)) ;;
       content <- lift (gemini_reply result) ;;
       parse_reply content
         (VDict (fallback_analysis company_name website_content)))
      (fun _ => ret (VDict (fallback_analysis company_name website_content))).

Definition analyze_with_openai (company_name : cell) (website_content : string)
  : M W value :=
  if negb (configured (openai_api_key self))
  then ret (VDict (fallback_analysis company_name website_content))
  else
    try_except
      (let url := openai_url in
       let headers := openai_headers in
       let prompt := openai_prompt company_name website_content in
       let payload := openai_payload prompt in
       response <- requests_post world url headers payload ;;
       lift (raise_for_status response) ;;;
       result <- lift (json_loads world (body response)) ;;
       content <- lift (openai_reply result) ;;
       parse_reply content
         (VDict (fallback_analysis company_name website_content)))
      (fun _ => ret (VDict (fallback_analysis company_name website_content))).

(** The dictionary handed to [result.update] after an analysis; each
    [analysis.get(...)] raises AttributeError when [analysis] is not a
    dict. *)
Definition analysis_update (analysis : value) : outcome Dict.t :=
  match analysis with
  | VDict d =>
      Ok [ ("industry", Dict.get "industry" (VStr "Unknown") d);
           ("company_size", Dict.get "company_size" (VStr "Unknown") d);
           ("summary_from_llm",
             Dict.get "summary" (VStr "No summary available") d);
           ("target_customer", Dict.get "target_customer" (VStr "Unknown") d);
           ("automation_pitch_from_llm",
             Dict.get "automation_pitch"
                      (VStr "Custom AI solution available") d) ]
  | _ => Raise AttributeError
  end.

(** The local variable [result] of [enrich_company] lives next to the
    world while the body of its [try] runs. *)
Definition L (A : Type) : Type := M (Dict.t * W) A.

Definition on_world {A} (m : M W A) : L A :=
  fun s =>
    match m (snd s) with
    | (r, w') => (r, (fst s, w'))
    end.

Definition update_result (other : Dict.t) : L unit :=
  fun s => (Ok tt, (Dict.update other (fst s), snd s)).

Definition set_result (k : string) (v : value) : L unit :=
  fun s => (Ok tt, (Dict.set k v (fst s), snd s)).

Definition get_result : L Dict.t := fun s => (Ok (fst s), s).

Definition run_local {A} (result : Dict.t) (m : L A) : M W A :=
  fun w =>
    match m (result, w) with
    | (r, s') => (r, snd s')
    end.

Definition sleep (milliseconds : Z) : M W unit :=
  fun w => (Ok tt, time_sleep world milliseconds w).

Definition initial_result (company_name : cell) : Dict.t :=
  [ ("company_name", value_of_cell company_name);
    ("website", VStr EmptyString);
    ("industry", VStr EmptyString);
    ("company_size", VStr EmptyString);
    ("summary_from_llm", VStr EmptyString);
    ("target_customer", VStr EmptyString);
    ("automation_pitch_from_llm", VStr EmptyString) ].

(** the update of the [except] branch of [enrich_company] *)
Definition error_update (company_name : cell) : Dict.t :=
  [ ("industry", VStr "Unknown");
    ("company_size", VStr "Unknown");
    ("summary_from_llm",
      VStr ("Error processing " ++ format_cell company_name));
    ("target_customer", VStr "Unknown");
    ("automation_pitch_from_llm",
      VStr "Please contact us for custom solution") ].

(** the body of the [try] of [enrich_company] *)
Definition enrich_steps (company_name : cell) : L unit :=
  website <- on_world (find_company_website company_name) ;;
  if PyStr.nonempty website then
    set_result "website" (VStr website) ;;;
    content <- on_world (scrape_website_content website) ;;
    if PyStr.nonempty content then
      analysis <-
        on_world
          (if configured (gemini_api_key self)
           then analyze_with_gemini company_name content
           else if configured (openai_api_key self)
           then analyze_with_openai company_name content
           else ret (VDict (fallback_analysis company_name content))) ;;
      fields <- lift (analysis_update analysis) ;;
      update_result fields
    else
      analysis <- lift (fallback_analysis_of_name company_name) ;;
      fields <- lift (analysis_update (VDict analysis)) ;;
      update_result fields
  else
    analysis <- lift (fallback_analysis_of_name company_name) ;;
    fields <- lift (analysis_update (VDict analysis)) ;;
    update_result fields.

Definition enrich_company (company_name : cell) : M W Dict.t :=
  run_local (initial_result company_name)
    (try_except
       (enrich_steps company_name)
       (fun _ => update_result (error_update company_name)) ;;;
     on_world (sleep 500) ;;;
     get_result).

(** the record [process_csv] substitutes when [enrich_company] raises *)
Definition basic_record (company_name : cell) : Dict.t :=
  [ ("company_name", value_of_cell company_name);
    ("website", VStr "Unknown");
    ("industry", VStr "Unknown");
    ("company_size", VStr "Unknown");
    ("summary_from_llm", VStr "Error processing company");
    ("target_customer", VStr "Unknown");
    ("automation_pitch_from_llm",
      VStr "Please contact us for custom solution") ].

(** The [for idx, row in df.iterrows()] loop of [process_csv].  The
    message logged before the [try] formats [idx + 1], which raises on a
    label that is a [str] or a tuple; nothing around the loop catches
    it. *)
Fixpoint enrich_rows (df : table) (todo : list (label * list cell))
  (enriched_data : list Dict.t) : M W (list Dict.t) :=
  match todo with
  | [] => ret enriched_data
  | (idx, row) :: rest =>
      company_name <- lift (row_get df row "company_name") ;;
      lift (plus_one idx) ;;;
      enriched_data <-
        try_except
          (enriched_company <- enrich_company company_name ;;
           ret (enriched_data ++ [enriched_company])%list)
          (fun _ => ret (enriched_data ++ [basic_record company_name])%list) ;;
      enrich_rows df rest enriched_data
  end.

Definition is_FileNotFoundError (e : exn) : bool :=
  match e with
  | FileNotFoundError => true
  | _ => false
  end.

(** [process_csv]; [None] is the [return None] for a missing input file. *)
Definition process_csv (input_file : string) (output_file : option string)
  : M W (option frame) :=
  let output_file :=
    match output_file with
    | None => PyStr.replace ".csv" "_enriched.csv" input_file
    | Some name => name
    end in
  read <-
    try_except_only is_FileNotFoundError
      (df <- read_csv world input_file ;; ret (Some df))
      (fun _ => ret None) ;;
  match read with
  | None => ret None
  | Some df =>
      if negb (has_column "company_name" df)
      then raise (ValueError "CSV must contain 'company_name' column")
      else
        enriched_data <- enrich_rows df (iterrows df) [] ;;
        let result_df := DataFrame enriched_data in
        try_except
          (to_csv world result_df output_file)
          (fun _ =>
             now <- (fun w => match time_time world w with
                              | (t, w') => (Ok t, w')
                              end) ;;
             let backup_file :=
               "enriched_companies_backup_" ++ PyStr.of_Z now ++ ".csv" in
             to_csv world result_df backup_file) ;;;
        ret (Some result_df)
  end.

End Enricher.

(** ** The upload gate of the web interface (streamlit_web_interface.py) *)

Inductive message : Type :=
| st_error (text : string)
| st_error_reading (e : exn)
| st_info (text : string)
| st_success (text : string)
| st_warning (text : string).

(** The [with col2] block of [main] for an uploaded file: [read] is what
    [pd.read_csv(uploaded_file)] gave.  Returns what is shown and [df]. *)
Definition preview_upload (read : outcome table)
  : list message * option table :=
  match read with
  | Ok df =>
      if negb (has_column "company_name" df)
      then ([ st_error "CSV must contain a 'company_name' column";
              st_info ("Available columns: "
                       ++ PyStr.join ", " (columns df)) ],
            Some df)
      else
        let total := PyStr.of_Z (Z.of_nat (List.length (rows df))) in
        (st_success ("Found " ++ total ++ " companies to process")
           :: (if Nat.ltb 10 (List.length (rows df))
               then [st_info ("Showing first 10 rows. Total: " ++ total
                              ++ " companies")]
               else []),
         Some df)
  | Raise e => ([st_error_reading e], None)
  end.

Section WebInterface.

Context {W A : Type}.

(** What [main] does with an uploaded file once the preview is shown:
    [process_companies] runs only behind the column check and the button.
    [process_companies] stands for the call with the enricher and the
    settings chosen in the sidebar. *)
Definition main_upload (read : outcome table) (start_enrichment : bool)
  (process_companies : table -> M W A) : M W (list message * option A) :=
  let shown := fst (preview_upload read) in
  match snd (preview_upload read) with
  | Some df =>
      if has_column "company_name" df
      then
        if start_enrichment
        then done <- process_companies df ;; ret (shown, Some done)
        else ret (shown, None)
      else
        ret ((shown ++
              [st_warning
                 "Please upload a valid CSV file with a 'company_name' column to continue."])%list,
             None)
  | None =>
      ret ((shown ++
            [st_warning
               "Please upload a valid CSV file with a 'company_name' column to continue."])%list,
           None)
  end.

End WebInterface.

(** ** The batch loop of the web interface (streamlit_web_interface.py) *)

(** The enricher [create_enricher_instance] hands to [process_companies]:
    a [CompanyEnricher], or the [FallbackCompanyEnricher] of the web
    interface when the import or the construction failed. *)
Inductive enricher : Type :=
| RealEnricher (self : CompanyEnricher)
| FallbackEnricher.

(** [create_enricher_instance]; [imported] says whether [CompanyEnricher]
    could be imported, the keys are the texts typed in the sidebar.  The
    constructor only stores the keys and opens a session. *)
Definition create_enricher_instance (imported : bool)
  (gemini_key openai_key : string) : enricher :=
  if imported
  then RealEnricher
         {| gemini_api_key :=
              if PyStr.nonempty gemini_key then Some gemini_key else None;
            openai_api_key :=
              if PyStr.nonempty openai_key then Some openai_key else None |}
  else FallbackEnricher.

Definition simple_industry (name_lower : string) : string :=
  if any_keyword ["tech"; "software"; "ai"; "digital"] name_lower
  then "Technology"
  else if any_keyword ["bank"; "financial"; "capital"] name_lower
  then "Finance"
  else if any_keyword ["health"; "medical"; "pharma"] name_lower
  then "Healthcare"
  else "Business Services".

(** What [process_companies] shows of a text field when live progress is
    on: [len(text)], then [text[:limit] + "..."] when it is longer.  Only
    whether this raises is kept: [len] raises TypeError on None, a bool or
    a number; a list or dict longer than [limit] cannot be cut and joined
    to a [str]. *)
Definition clip (limit : nat) (text : value) : outcome unit :=
  match text with
  | VStr _ => Ok tt
  | VList items =>
      if Nat.ltb limit (List.length items) then Raise TypeError else Ok tt
  | VDict members =>
      if Nat.ltb limit (List.length members) then Raise TypeError else Ok tt
  | _ => Raise TypeError
  end.

(** the [if show_progress:] block: summary cut at 150, pitch at 200 *)
Definition show_result (result : Dict.t) : outcome unit :=
  and_then
    (clip 150
       (Dict.get "summary_from_llm" (VStr "No summary available") result))
    (fun _ =>
       clip 200
         (Dict.get "automation_pitch_from_llm" (VStr "No pitch available")
            result)).

(** the record [process_companies] appends in its [except] branch *)
Definition error_record (company_name : cell) (error_msg : string) : Dict.t :=
  [ ("company_name", value_of_cell company_name);
    ("website", VStr "Error");
    ("industry", VStr "Unknown");
    ("company_size", VStr "Unknown");
    ("summary_from_llm", VStr ("Error: " ++ error_msg));
    ("target_customer", VStr "Unknown");
    ("automation_pitch_from_llm", VStr "Contact us for custom solution") ].

Section WebBatch.

Context {W : Type} (world : World W).

(** [str(e)], the text of an exception *)
Variable describe : exn -> string.

(** [FallbackCompanyEnricher.enrich_company]: [company_name.lower()]
    raises AttributeError on a name that is not a [str]. *)
Definition fallback_enrich_company (company_name : cell) : M W Dict.t :=
  sleep world 500 ;;;
  match company_name with
  | Num _ => raise AttributeError
  | Str name =>
      let name_lower := PyStr.lower name in
      let industry := simple_industry name_lower in
      ret [ ("company_name", VStr name);
            ("website",
              VStr ("https://www."
                    ++ PyStr.replace "." EmptyString
                         (PyStr.replace " " EmptyString (PyStr.lower name))
                    ++ ".com"));
            ("industry", VStr industry);
            ("company_size", VStr "Medium");
            ("summary_from_llm",
              VStr (name ++ " is a " ++ PyStr.lower industry
                    ++ " company that provides services to businesses and consumers."));
            ("target_customer", VStr "Small to medium businesses");
            ("automation_pitch_from_llm",
              VStr ("QF Innovate can help " ++ name
                    ++ " implement AI chatbots, automated customer service, and process optimization to increase efficiency by 30-50%.")) ]
  end.

(** [enricher.enrich_company(company_name)] *)
Definition enricher_enrich_company (e : enricher) (company_name : cell)
  : M W Dict.t :=
  match e with
  | RealEnricher self => enrich_company world self company_name
  | FallbackEnricher => fallback_enrich_company company_name
  end.

(** The list [enriched_results] lives next to the world while the loop of
    [process_companies] runs. *)
Definition B (A : Type) : Type := M (list Dict.t * W) A.

Definition in_world {A} (m : M W A) : B A :=
  fun s =>
    match m (snd s) with
    | (r, w') => (r, (fst s, w'))
    end.

(** [enriched_results.append(record)] *)
Definition append_result (record : Dict.t) : B unit :=
  fun s => (Ok tt, ((fst s ++ [record])%list, snd s)).

(** One turn of the [for idx, row in companies_to_process.iterrows()] loop
    without its progress bar: the name is read and the [try] statement is
    run; the texts written to the page are left out.  [delay] is in
    milliseconds.  [process_turn] is the whole turn. *)
Definition process_row (df : table) (e : enricher) (show_progress : bool)
  (delay : Z) (row : list cell) : B unit :=
  company_name <- lift (row_get df row "company_name") ;;
  try_except
    (result <- in_world (enricher_enrich_company e company_name) ;;
     append_result result ;;;
     (if show_progress then lift (show_result result) else ret tt) ;;;
     (if Z.ltb 0 delay then in_world (sleep world delay) else ret tt))
    (fun err => append_result (error_record company_name (describe err))).

(** Whether [(float(shown) + 1) / total] lies between 0.0 and 1.0;
    floating-point arithmetic is not modelled. *)
Variable fits_unit : string -> nat -> bool.

(** [progress = (idx + 1) / total_companies] and
    [progress_bar.progress(progress)]: the sum raises TypeError on a label
    that is a [str] or a tuple, and the bar raises on a float outside
    0.0 .. 1.0.  For an int label the quotient is inside exactly when
    0 <= idx + 1 <= total (the bar's tolerance of 1e-9 at both ends plays
    no part below 10^9 rows).  [total_companies] is not 0 inside the
    loop. *)
Definition progress_bar (idx : label) (total_companies : nat) : outcome unit :=
  match idx with
  | StrLabel _ | TupleLabel _ => Raise TypeError
  | IntLabel i =>
      if (0 <=? i + 1)%Z && (i + 1 <=? Z.of_nat total_companies)%Z
      then Ok tt
      else Raise (LibraryError "StreamlitAPIException")
  | FloatLabel shown =>
      if fits_unit shown total_companies
      then Ok tt
      else Raise (LibraryError "StreamlitAPIException")
  end.

(** The whole turn for the row labelled [idx]: the name is read, the
    progress bar is moved, then the [try] statement is run ([process_row]
    reads the name once more, which changes nothing). *)
Definition process_turn (df : table) (e : enricher) (show_progress : bool)
  (delay : Z) (total_companies : nat) (idx : label) (row : list cell)
  : B unit :=
  lift (row_get df row "company_name") ;;;
  lift (progress_bar idx total_companies) ;;;
  process_row df e show_progress delay row.

Fixpoint process_rows (df : table) (e : enricher) (show_progress : bool)
  (delay : Z) (total_companies : nat) (todo : list (label * list cell))
  : B unit :=
  match todo with
  | [] => ret tt
  | (idx, row) :: rest =>
      process_turn df e show_progress delay total_companies idx row ;;;
      process_rows df e show_progress delay total_companies rest
  end.

(** [process_companies] up to the end of its loop: the result is the list
    [enriched_results] the loop has collected, from which the frame shown
    on the page is built.  What the function does after the loop (the
    frame, the download button, the statistics) is not modelled. *)
Definition process_companies (df : table) (e : enricher) (batch_size : nat)
  (show_progress : bool) (delay : Z) : M W (list Dict.t) :=
  fun w =>
    let companies_to_process := firstn batch_size (iterrows df) in
    let total_companies := List.length companies_to_process in
    match process_rows df e show_progress delay total_companies
            companies_to_process ([], w) with
    | (Ok _, s) => (Ok (fst s), snd s)
    | (Raise err, s) => (Raise err, snd s)
    end.

End WebBatch.

(** ** A scripted world, for running the program on examples

    The state of this world is the list of effects so far, newest first. *)

Module Script.

Inductive effect : Type :=
| Head (url : string)
| Get (url : string)
| Post (url : string)
| Sleep (milliseconds : Z)
| Clock
| ReadCsv (path : string)
| WriteCsv (path : string) (data : frame).

Definition log : Type := list effect.

Fixpoint find {A} (k : string) (l : list (string * A)) : option A :=
  match l with
  | [] => None
  | (k', a) :: r => if String.eqb k k' then Some a else find k r
  end.

Definition unreachable : exn := LibraryError "ConnectionError".

Record script : Type := {
  (** status codes of the sites that answer a HEAD request *)
  heads : list (string * Z);
  (** pages that answer a GET request; the body is its own visible text *)
  pages : list (string * response);
  (** the answer of every POST request, if any *)
  answer : option response;
  (** the texts [json.loads] accepts, with their values *)
  documents : list (string * value);
  (** the CSV files that exist *)
  files : list (string * table);
  (** whether writing a CSV file works *)
  writable : bool
}.

Definition world (s : script) : World log := {|
  session_head := fun url w =>
    (match find url (heads s) with
     | Some code => Ok {| status_code := code; body := EmptyString |}
     | None => Raise unreachable
     end, Head url :: w);
  session_get := fun url w =>
    (match find url (pages s) with
     | Some r => Ok r
     | None => Raise unreachable
     end, Get url :: w);
  requests_post := fun url _ _ w =>
    (match answer s with
     | Some r => Ok r
     | None => Raise unreachable
     end, Post url :: w);
  time_sleep := fun ms w => Sleep ms :: w;
  time_time := fun w => (1700000000%Z, Clock :: w);
  read_csv := fun path w =>
    (match find path (files s) with
     | Some t => Ok t
     | None => Raise FileNotFoundError
     end, ReadCsv path :: w);
  to_csv := fun data path w =>
    (if writable s then Ok tt else Raise (LibraryError "PermissionError"),
     WriteCsv path data :: w);
  json_loads := fun text =>
    match find text (documents s) with
    | Some v => Ok v
    | None => Raise (LibraryError "JSONDecodeError")
    end;
  visible_text := fun content => Ok content
|}.

End Script.

(** ** Vocabulary of the properties *)

(** the value of a field of a record, if the field is there *)
Definition field (k : string) (d : Dict.t) : option value := Dict.lookup k d.

(** a label that is a number: [idx + 1] is defined on it *)
Definition numeric (idx : label) : bool :=
  match idx with
  | IntLabel _ | FloatLabel _ => true
  | StrLabel _ | TupleLabel _ => false
  end.

(** the rows are numbered 0, 1, 2, ..., as [pd.read_csv] numbers them when
    no line has more fields than the header *)
Definition numbered (df : table) : Prop :=
  forall position,
    position < List.length (rows df) -> index df position = range_index position.

(** an enriched record, field by field *)
Definition record_of
  (name website industry size summary target pitch : value) : Dict.t :=
  [ ("company_name", name);
    ("website", website);
    ("industry", industry);
    ("company_size", size);
    ("summary_from_llm", summary);
    ("target_customer", target);
    ("automation_pitch_from_llm", pitch) ].

(** the records [enrich_company] and the batch runner can build *)
Definition shaped (company_name : cell) (record : Dict.t) : Prop :=
  exists website industry size summary target pitch,
    record = record_of (value_of_cell company_name) website industry size
               summary target pitch.

(** a non-empty [str] *)
Definition filled (v : value) : bool :=
  match v with
  | VStr s => PyStr.nonempty s
  | _ => false
  end.

Definition analysis_fields : list string :=
  ["summary"; "target_customer"; "industry"; "company_size";
   "automation_pitch"].

(** all five fields of an analysis are present and are non-empty strings *)
Definition complete_analysis (analysis : value) : bool :=
  match analysis with
  | VDict d =>
      forallb (fun k => match field k d with
                        | Some v => filled v
                        | None => false
                        end) analysis_fields
  | _ => false
  end.

(** the candidate domains [find_company_website] probes for a [str] *)
Definition candidates (name : string) : list string :=
  let clean_name := PyStr.re_sub_nonword name in
  [ squeeze clean_name ++ ".com";
    squeeze clean_name ++ ".co";
    squeeze clean_name ++ ".io";
    "www." ++ squeeze clean_name ++ ".com" ].

(** the URL returned without validation when no candidate answers *)
Definition best_guess (name : string) : string :=
  "https://www." ++ squeeze (PyStr.re_sub_nonword name) ++ ".com".

(** [rejected world patterns w w']: probed one after the other from state
    [w], every pattern was found inaccessible, leaving state [w']. *)
Inductive rejected {W : Type} (world : World W)
  : list string -> W -> W -> Prop :=
| rejected_nil (w : W) : rejected world [] w w
| rejected_cons (p : string) (ps : list string) (w w' w'' : W) :
    is_website_accessible world ("https://" ++ p) w = (Ok false, w') ->
    rejected world ps w' w'' ->
    rejected world (p :: ps) w w''.

(** [url] is the first of [patterns] that passes the probe, probing from
    state [w] and ending in state [w']. *)
Definition first_passing {W : Type} (world : World W)
  (patterns : list string) (w : W) (url : string) (w' : W) : Prop :=
  exists before p after wp,
    patterns = (before ++ p :: after)%list /\
    url = "https://" ++ p /\
    rejected world before w wp /\
    is_website_accessible world url wp = (Ok true, w').

(** every character of [s] satisfies [p] *)
Fixpoint all_chars (p : ascii -> bool) (s : string) : bool :=
  match s with
  | EmptyString => true
  | String c r => p c && all_chars p r
  end.

(** the character with code [n] does not occur in [s] *)
Definition lacks (n : nat) (s : string) : bool :=
  all_chars (fun c => negb (Nat.eqb (PyStr.code c) n)) s.

(** no line boundary of [str.splitlines] occurs in [s] *)
Definition single_line (s : string) : bool :=
  all_chars (fun c => negb (PyStr.is_linebreak c)) s.

(** the record [enrich_company] assembles from a name, a website and the
    dictionary of an analysis, with its defaults for missing fields *)
Definition record_with (name website : value) (analysis : Dict.t) : Dict.t :=
  record_of name website
    (Dict.get "industry" (VStr "Unknown") analysis)
    (Dict.get "company_size" (VStr "Unknown") analysis)
    (Dict.get "summary" (VStr "No summary available") analysis)
    (Dict.get "target_customer" (VStr "Unknown") analysis)
    (Dict.get "automation_pitch" (VStr "Custom AI solution available")
       analysis).

(** What one turn of the loop of [process_companies] adds for a row named
    [company_name]: one record, or, with live progress on, a record that
    cannot be shown followed by the error record. *)
Definition turn_of (show_progress : bool) (company_name : cell)
  (added : list Dict.t) : Prop :=
  Forall (shaped company_name) added /\
  (List.length added = 1 \/
   (show_progress = true /\ exists record msg,
      added = [record; error_record company_name msg] /\
      show_result record <> Ok tt)).

(** the blank, U+0020 *)
Definition is_blank (c : ascii) : bool := Nat.eqb (PyStr.code c) 32.

(** [s] begins with a blank *)
Definition starts_blank (s : string) : bool :=
  match s with
  | EmptyString => false
  | String c _ => is_blank c
  end.

(** [s] ends with a blank *)
Fixpoint ends_blank (s : string) : bool :=
  match s with
  | EmptyString => false
  | String c EmptyString => is_blank c
  | String _ r => ends_blank r
  end.

(** no two blanks follow each other in [s] *)
Fixpoint no_double_blank (s : string) : bool :=
  match s with
  | EmptyString => true
  | String a r => negb (is_blank a && starts_blank r) && no_double_blank r
  end.

(** [s] does not begin with white space *)
Definition starts_clean (s : string) : bool :=
  match s with
  | EmptyString => true
  | String c _ => negb (PyStr.is_space c)
  end.

(** what every chunk kept by the clean-up satisfies *)
Definition tidy (chunk : string) : Prop :=
  PyStr.nonempty chunk = true /\
  no_double_blank chunk = true /\
  starts_clean chunk = true /\
  ends_blank chunk = false.

(** the two model-backed strategies *)
Inductive backend : Type := Gemini | OpenAI.

Section Backends.

Context {W : Type} (world : World W) (self : CompanyEnricher).

Definition analyze (b : backend) : cell -> string -> M W value :=
  match b with
  | Gemini => analyze_with_gemini world self
  | OpenAI => analyze_with_openai world self
  end.

(** the request a strategy sends *)
Definition request (b : backend) (company_name : cell)
  (website_content : string) : M W response :=
  match b with
  | Gemini =>
      requests_post world (gemini_url self) []
        (gemini_payload (gemini_prompt company_name website_content))
  | OpenAI =>
      requests_post world openai_url (openai_headers self)
        (openai_payload (openai_prompt company_name website_content))
  end.

Definition reply_of (b : backend) : value -> outcome value :=
  match b with
  | Gemini => gemini_reply
  | OpenAI => openai_reply
  end.

(** The backend answers the request made in state [w] with a well-formed
    envelope whose reply text holds a JSON-looking fragment that
    [json.loads] rejects. *)
Definition malformed_json (b : backend) (company_name : cell)
  (website_content : string) (w : W) : Prop :=
  exists resp w1 envelope text fragment e,
    request b company_name website_content w = (Ok resp, w1) /\
    raise_for_status resp = Ok tt /\
    json_loads world (body resp) = Ok envelope /\
    reply_of b envelope = Ok (VStr text) /\
    re_search_braces text = Some fragment /\
    json_loads world fragment = Raise e.

(** What both model-backed strategies do once a key is configured, for any
    request [post] and any way [pick] of picking the reply out of the
    answer. *)
Definition backed (post : M W response) (pick : value -> outcome value)
  (otherwise : value) : M W value :=
  try_except
    (response <- post ;;
     lift (raise_for_status response) ;;;
     result <- lift (json_loads world (body response)) ;;
     content <- lift (pick result) ;;
     parse_reply world content otherwise)
    (fun _ => ret otherwise).

(** the key a strategy needs *)
Definition key_of (b : backend) : option string :=
  match b with
  | Gemini => gemini_api_key self
  | OpenAI => openai_api_key self
  end.

(** The backend answered the request made in state [w], leaving state
    [w1], with a status that is no error, a body that parses, a reply text
    that holds a JSON-looking fragment, and [json.loads] made [v] of the
    fragment. *)
Definition answered (b : backend) (company_name : cell)
  (website_content : string) (w : W) (v : value) (w1 : W) : Prop :=
  exists resp envelope text fragment,
    request b company_name website_content w = (Ok resp, w1) /\
    raise_for_status resp = Ok tt /\
    json_loads world (body resp) = Ok envelope /\
    reply_of b envelope = Ok (VStr text) /\
    re_search_braces text = Some fragment /\
    json_loads world fragment = Ok v.

(** the same world with another way of answering POST requests *)
Definition with_post (post : string -> list (string * string) -> value
                             -> M W response) : World W := {|
  session_head := session_head world;
  session_get := session_get world;
  requests_post := post;
  time_sleep := time_sleep world;
  time_time := time_time world;
  read_csv := read_csv world;
  to_csv := to_csv world;
  json_loads := json_loads world;
  visible_text := visible_text world
|}.

(** the analysis [enrich_company] runs on scraped content: the first
    strategy whose key is configured *)
Definition chosen_analysis (company_name : cell) (content : string)
  : M W value :=
  if configured (gemini_api_key self)
  then analyze_with_gemini world self company_name content
  else if configured (openai_api_key self)
  then analyze_with_openai world self company_name content
  else ret (VDict (fallback_analysis company_name content)).

(** The ways a request to a backend fails before a fragment is parsed,
    leaving state [w1]: the request raises, the status is an HTTP error,
    the body does not parse, the reply cannot be picked out of the answer,
    the reply is not a [str], or it holds no '{...}' fragment. *)
Inductive failed (b : backend) (company_name : cell)
  (website_content : string) (w : W) : W -> Prop :=
| request_raised (e : exn) (w1 : W) :
    request b company_name website_content w = (Raise e, w1) ->
    failed b company_name website_content w w1
| http_error (resp : response) (e : exn) (w1 : W) :
    request b company_name website_content w = (Ok resp, w1) ->
    raise_for_status resp = Raise e ->
    failed b company_name website_content w w1
| body_unparsable (resp : response) (e : exn) (w1 : W) :
    request b company_name website_content w = (Ok resp, w1) ->
    raise_for_status resp = Ok tt ->
    json_loads world (body resp) = Raise e ->
    failed b company_name website_content w w1
| reply_missing (resp : response) (envelope : value) (e : exn) (w1 : W) :
    request b company_name website_content w = (Ok resp, w1) ->
    raise_for_status resp = Ok tt ->
    json_loads world (body resp) = Ok envelope ->
    reply_of b envelope = Raise e ->
    failed b company_name website_content w w1
| reply_not_text (resp : response) (envelope reply : value) (w1 : W) :
    request b company_name website_content w = (Ok resp, w1) ->
    raise_for_status resp = Ok tt ->
    json_loads world (body resp) = Ok envelope ->
    reply_of b envelope = Ok reply ->
    (forall text, reply <> VStr text) ->
    failed b company_name website_content w w1
| fragment_missing (resp : response) (envelope : value) (text : string)
    (w1 : W) :
    request b company_name website_content w = (Ok resp, w1) ->
    raise_for_status resp = Ok tt ->
    json_loads world (body resp) = Ok envelope ->
    reply_of b envelope = Ok (VStr text) ->
    re_search_braces text = None ->
    failed b company_name website_content w w1.

(** The ways fetching a page fails, leaving state [w2]: the request
    raises, the status is an HTTP error, or the parser raises. *)
Inductive fetch_failed (url : string) (w1 : W) : W -> Prop :=
| get_raised (e : exn) (w2 : W) :
    session_get world url w1 = (Raise e, w2) ->
    fetch_failed url w1 w2
| get_http_error (resp : response) (e : exn) (w2 : W) :
    session_get world url w1 = (Ok resp, w2) ->
    raise_for_status resp = Raise e ->
    fetch_failed url w1 w2
| page_unparsable (resp : response) (e : exn) (w2 : W) :
    session_get world url w1 = (Ok resp, w2) ->
    raise_for_status resp = Ok tt ->
    visible_text world (body resp) = Raise e ->
    fetch_failed url w1 w2.

End Backends.

(** ** Scenarios *)

Module Scenario.

Definition no_keys : CompanyEnricher :=
  {| gemini_api_key := None; openai_api_key := None |}.

Definition gemini_only : CompanyEnricher :=
  {| gemini_api_key := Some "key"; openai_api_key := None |}.

Definition gemini_envelope (text : string) : value :=
  VDict [("candidates",
          VList [VDict [("content",
                         VDict [("parts",
                                 VList [VDict [("text", VStr text)]])])]])].

(** a backend whose reply is [text], wrapped in a proper envelope *)
Definition replying (text : string) (documents : list (string * value))
  : Script.script := {|
  Script.heads := [];
  Script.pages := [];
  Script.answer := Some {| status_code := 200; body := "envelope" |};
  Script.documents := ("envelope", gemini_envelope text) :: documents;
  Script.files := [];
  Script.writable := true
|}.

(** the reply is the empty JSON object *)
Definition empty_object_reply : Script.script :=
  replying "{}" [("{}", VDict [])].

(** the reply looks like JSON and is not *)
Definition broken_reply : Script.script :=
  replying "Sure! {summary: a bakery}" [].

(** a CSV file with two columns, an empty name in its second row *)
Definition leads : table := {|
  columns := ["company_name"; "city"];
  rows := [ [Str "Acme Bakery"; Str "Paris"];
            [Num "nan"; Str "Lyon"] ];
  index := range_index
|}.

(** a CSV file without the required column *)
Definition contacts : table := {|
  columns := ["firm"; "city"];
  rows := [ [Str "Acme Bakery"; Str "Paris"] ];
  index := range_index
|}.

Definition disk : Script.script := {|
  Script.heads := [("https://acmebakery.co", 200%Z)];
  Script.pages :=
    [("https://acmebakery.co",
      {| status_code := 200; body := "Fresh bread  every morning" |})];
  Script.answer := None;
  Script.documents := [];
  Script.files := [("leads.csv", leads); ("contacts.csv", contacts)];
  Script.writable := true
|}.

End Scenario.

(** ** More scenarios *)

Module Cases.

(** the analysis a backend gives in these scenarios: no size, no pitch,
    and a summary that is JSON null *)
Definition partial_analysis : Dict.t :=
  [ ("industry", VStr "Food");
    ("summary", VNone);
    ("target_customer", VStr "Families");
    ("website", VStr "https://elsewhere.example") ].

(** the bakery's site answers, and so does the backend *)
Definition bakery : Script.script := {|
  Script.heads := [("https://acmebakery.co", 200%Z)];
  Script.pages :=
    [("https://acmebakery.co",
      {| status_code := 200; body := "Fresh bread  every morning" |})];
  Script.answer := Some {| status_code := 200; body := "envelope" |};
  Script.documents :=
    [ ("envelope", Scenario.gemini_envelope "Here it is: {analysis}");
      ("{analysis}", VDict partial_analysis) ];
  Script.files := [("leads.csv", Scenario.leads)];
  Script.writable := false
|}.

(** [str(e)] in the scenarios *)
Definition describe (e : exn) : string :=
  match e with
  | TypeError => "object of type 'NoneType' has no len()"
  | AttributeError => "'float' object has no attribute 'lower'"
  | _ => "error"
  end.

(** no row of the scenarios has a float as its label *)
Definition fits_unit (shown : string) (total_companies : nat) : bool := false.

(** a CSV file with the header and no row *)
Definition header_only : table := {|
  columns := ["company_name"];
  rows := [];
  index := range_index
|}.

(** The CSV file with the header line company_name and the data line
    Acme, Inc. (no quotes): the line has one field more than the header,
    so its first field is the label of the row. *)
Definition unquoted : table := {|
  columns := ["company_name"];
  rows := [ [Str " Inc."] ];
  index := fun _ => StrLabel "Acme"
|}.

Definition shelf : Script.script := {|
  Script.heads := [];
  Script.pages := [];
  Script.answer := None;
  Script.documents := [];
  Script.files := [("empty.csv", header_only); ("unquoted.csv", unquoted)];
  Script.writable := true
|}.

End Cases.

(** * Properties *)

(** ** Text *)

Lemma prefix_lower (a b : string) :
  prefix a b = true -> prefix (PyStr.lower a) (PyStr.lower b) = true.
Proof.
  revert a; induction b as [|c b IH]; intros [|x a]; simpl; auto.
  destruct (ascii_dec x c) as [->|]; [|discriminate].
  intros H.
  destruct (ascii_dec (PyStr.lower_char c) (PyStr.lower_char c));
    [auto | congruence].
Qed.

Lemma contains_lower (k h : string) :
  PyStr.contains k h = true ->
  PyStr.contains (PyStr.lower k) (PyStr.lower h) = true.
Proof.
  induction h as [|c h IH].
  - apply (prefix_lower k EmptyString).
  - cbn [PyStr.contains PyStr.lower]. intros H.
    apply orb_true_iff in H. apply orb_true_iff.
    destruct H as [H|H]; [left | right; auto].
    apply (prefix_lower k (String c h) H).
Qed.

Lemma prefix_app (c rest : string) : prefix c (c ++ rest) = true.
Proof.
  induction c as [|x s IH]; simpl; [destruct rest; reflexivity|].
  destruct (ascii_dec x x); [exact IH | congruence].
Qed.

Lemma contains_of_prefix (k h : string) :
  prefix k h = true -> PyStr.contains k h = true.
Proof.
  destruct h; simpl; intros ->; auto.
Qed.

Lemma contains_app_r (k p s : string) :
  PyStr.contains k s = true -> PyStr.contains k (p ++ s) = true.
Proof.
  induction p as [|x p IH]; simpl; auto.
  intros H. rewrite (IH H). apply orb_true_r.
Qed.

Lemma contains_join (sep c : string) (parts : list string) :
  In c parts -> PyStr.contains c (PyStr.join sep parts) = true.
Proof.
  induction parts as [|p [|q rest] IH]; intros Hin.
  - destruct Hin.
  - destruct Hin as [->|[]]. simpl.
    apply contains_of_prefix. rewrite <- (prefix_app c EmptyString).
    f_equal. clear. induction c; simpl; congruence.
  - change (PyStr.join sep (p :: q :: rest))
      with (p ++ sep ++ PyStr.join sep (q :: rest)).
    destruct Hin as [->|Hin].
    + apply contains_of_prefix, prefix_app.
    + apply contains_app_r, contains_app_r, IH, Hin.
Qed.

Lemma length_take (n : nat) (s : string) : String.length (PyStr.take n s) <= n.
Proof.
  unfold PyStr.take. revert s; induction n as [|n IH]; intros [|c s]; simpl;
    try lia.
  specialize (IH s). lia.
Qed.

(** ** The rule-based analysis *)

Lemma fallback_industry (company_name : cell) (website_content : string) :
  field "industry" (fallback_analysis company_name website_content)
  = Some (VStr (detect_industry website_content)).
Proof. reflexivity. Qed.

Lemma fallback_company_size (company_name : cell) (website_content : string) :
  field "company_size" (fallback_analysis company_name website_content)
  = Some (VStr (estimate_size website_content)).
Proof. reflexivity. Qed.

Lemma keyword_found (k : string) (keywords : list string) (content : string) :
  In k keywords -> PyStr.lower k = k -> PyStr.contains k content = true ->
  any_keyword keywords (PyStr.lower content) = true.
Proof.
  intros Hin Hk Hc. unfold any_keyword. apply existsb_exists.
  exists k. split; [exact Hin|]. rewrite <- Hk. apply contains_lower, Hc.
Qed.

(** C5, as stated, fails: content that contains "medical" is classified as
    Technology when it also contains a technology keyword. *)
Lemma medical_software_is_technology :
  PyStr.contains "medical" "medical software" = true /\
  field "industry" (fallback_analysis (Str "Acme") "medical software")
  <> Some (VStr "Healthcare").
Proof. split; [reflexivity | discriminate]. Qed.

(** C5, amended: the keyword sets are tried on the lower-cased content in
    the order technology, finance, healthcare, retail, the first set with a
    keyword in the content decides, and "Business Services" is the default.
    So content containing "software" is Technology, and content containing
    "medical" is Healthcare when no technology and no finance keyword
    occurs in it. *)
Theorem fallback_industry_priority
  (company_name : cell) (website_content : string) :
  let lowered := PyStr.lower website_content in
  let industry :=
    field "industry" (fallback_analysis company_name website_content) in
  (PyStr.contains "software" website_content = true ->
   industry = Some (VStr "Technology")) /\
  (PyStr.contains "medical" website_content = true ->
   any_keyword technology_keywords lowered = false ->
   any_keyword finance_keywords lowered = false ->
   industry = Some (VStr "Healthcare")) /\
  (any_keyword technology_keywords lowered = false ->
   any_keyword finance_keywords lowered = false ->
   any_keyword healthcare_keywords lowered = false ->
   any_keyword retail_keywords lowered = false ->
   industry = Some (VStr "Business Services")) /\
  industry = Some (VStr
    (if any_keyword technology_keywords lowered then "Technology"
     else if any_keyword finance_keywords lowered then "Finance"
     else if any_keyword healthcare_keywords lowered then "Healthcare"
     else if any_keyword retail_keywords lowered then "Retail"
     else "Business Services")).
Proof.
  intros lowered industry. subst industry lowered.
  rewrite fallback_industry. unfold detect_industry.
  repeat split.
  - intros H.
    rewrite (keyword_found "software" technology_keywords website_content);
      simpl; auto.
  - intros H Ht Hf. rewrite Ht, Hf.
    rewrite (keyword_found "medical" healthcare_keywords website_content);
      simpl; auto.
  - intros Ht Hf Hh Hr. rewrite Ht, Hf, Hh, Hr. reflexivity.
Qed.

Lemma fallback_industry_priority_witness :
  field "industry" (fallback_analysis (Str "Acme") "We write Software")
  = Some (VStr "Technology") /\
  field "industry" (fallback_analysis (Str "Acme") "a medical practice")
  = Some (VStr "Healthcare") /\
  field "industry" (fallback_analysis (Str "Acme") "we grow plums")
  = Some (VStr "Business Services").
Proof.
  split; [|split].
  - reflexivity.
  - apply (fallback_industry_priority (Str "Acme") "a medical practice");
      reflexivity.
  - apply (fallback_industry_priority (Str "Acme") "we grow plums");
      reflexivity.
Defined.

(** C6: the size is "large" above 2000 characters, "medium" above 1000 and
    "small" otherwise; 2500, 1500 and 500 characters give large, medium and
    small. *)
Theorem fallback_size_thresholds
  (company_name : cell) (website_content : string) :
  let n := String.length website_content in
  let size :=
    field "company_size" (fallback_analysis company_name website_content) in
  (2000 < n -> size = Some (VStr "large")) /\
  (1000 < n <= 2000 -> size = Some (VStr "medium")) /\
  (n <= 1000 -> size = Some (VStr "small")) /\
  (n = 2500 -> size = Some (VStr "large")) /\
  (n = 1500 -> size = Some (VStr "medium")) /\
  (n = 500 -> size = Some (VStr "small")).
Proof.
  intros n size. subst size. rewrite fallback_company_size.
  unfold estimate_size. fold n.
  destruct (Nat.ltb_spec 2000 n); destruct (Nat.ltb_spec 1000 n);
    repeat split; intros; try reflexivity; lia.
Qed.

Lemma fallback_size_thresholds_witness :
  field "company_size" (fallback_analysis (Str "Acme") (blanks 2500))
  = Some (VStr "large") /\
  field "company_size" (fallback_analysis (Str "Acme") (blanks 1500))
  = Some (VStr "medium") /\
  field "company_size" (fallback_analysis (Str "Acme") (blanks 500))
  = Some (VStr "small").
Proof.
  split; [|split].
  - apply (fallback_size_thresholds (Str "Acme") (blanks 2500));
      vm_compute; reflexivity.
  - apply (fallback_size_thresholds (Str "Acme") (blanks 1500));
      vm_compute; reflexivity.
  - apply (fallback_size_thresholds (Str "Acme") (blanks 500));
      vm_compute; reflexivity.
Defined.

(** ** Probing and scraping *)

Section Network.

Context {W : Type} (world : World W).

(** C10: the probe answers True exactly when the HEAD request returns
    status 200; every other status (201, 204, 301, 302, ...) and every
    exception of the request gives False, and the probe never raises. *)
Theorem is_website_accessible_iff_200 (url : string) (w : W) :
  let probe := fst (session_head world url w) in
  let answer := fst (is_website_accessible world url w) in
  (answer = Ok true <->
   exists r, probe = Ok r /\ status_code r = 200%Z) /\
  (forall r, probe = Ok r -> status_code r <> 200%Z -> answer = Ok false) /\
  (forall e, probe = Raise e -> answer = Ok false) /\
  (answer = Ok true \/ answer = Ok false).
Proof.
  unfold is_website_accessible, try_except, bind, ret.
  destruct (session_head world url w) as [[r|e] w']; simpl.
  - destruct (Z.eqb_spec (status_code r) 200) as [E|E];
      repeat split; auto; try discriminate; try congruence.
    + intros _. exists r. auto.
    + intros [r' [[= <-] H]]. contradiction.
  - repeat split; auto; try discriminate.
    intros [r [H _]]. discriminate.
Qed.

Lemma is_website_accessible_total (url : string) (w : W) :
  exists b w', is_website_accessible world url w = (Ok b, w').
Proof.
  unfold is_website_accessible, try_except, bind, ret.
  destruct (session_head world url w) as [[r|e] w']; eauto.
Qed.

Lemma scrape_website_content_total (url : string) (w : W) :
  exists text w',
    scrape_website_content world url w = (Ok text, w') /\
    String.length text <= 2000.
Proof.
  unfold scrape_website_content, try_except, bind, ret, lift.
  destruct (session_get world url w) as [[r|e] w'];
    [|exists EmptyString, w'; simpl; split; [reflexivity | lia]].
  destruct (raise_for_status r);
    [|exists EmptyString, w'; simpl; split; [reflexivity | lia]].
  destruct (visible_text world (body r)) as [text|e];
    [|exists EmptyString, w'; simpl; split; [reflexivity | lia]].
  eexists; exists w'; split; [reflexivity|].
  destruct (Nat.ltb_spec 2000 (String.length (clean_text text)));
    [apply length_take | assumption].
Qed.

(** C9: scraped content has at most 2000 characters, so the rule-based
    analysis of scraped content never says "large". *)
Theorem scrape_website_content_never_large (url : string) (w : W) :
  exists text,
    fst (scrape_website_content world url w) = Ok text /\
    String.length text <= 2000 /\
    forall company_name,
      field "company_size" (fallback_analysis company_name text)
      <> Some (VStr "large").
Proof.
  destruct (scrape_website_content_total url w) as (text & w' & E & Hlen).
  exists text. rewrite E. repeat split; auto.
  intros company_name. rewrite fallback_company_size. unfold estimate_size.
  destruct (Nat.ltb_spec 2000 (String.length text)); [lia|].
  destruct (Nat.ltb 1000 (String.length text)); discriminate.
Qed.

End Network.

(** ** The analysis step *)

(** unfolds the monad's operations in the goal *)
Ltac run :=
  cbv beta iota delta
    [bind lift ret raise try_except try_except_only parse_reply].

Lemma fallback_analysis_complete (company_name : cell) (content : string) :
  complete_analysis (VDict (fallback_analysis company_name content)) = true.
Proof.
  unfold complete_analysis, fallback_analysis, field. simpl.
  rewrite !andb_true_iff. repeat split.
  - destruct (format_cell company_name); reflexivity.
  - unfold detect_industry.
    repeat match goal with
           | |- context [if ?b then _ else _] => destruct b
           end; reflexivity.
  - unfold estimate_size.
    repeat match goal with
           | |- context [if ?b then _ else _] => destruct b
           end; reflexivity.
Qed.

Section Analysis.

Context {W : Type} (world : World W) (self : CompanyEnricher).

Lemma analyze_unfold (b : backend) (company_name : cell) (content : string) :
  analyze world self b company_name content
  = match b with
    | Gemini =>
        if negb (configured (gemini_api_key self))
        then ret (VDict (fallback_analysis company_name content))
        else backed world (request world self Gemini company_name content)
               gemini_reply (VDict (fallback_analysis company_name content))
    | OpenAI =>
        if negb (configured (openai_api_key self))
        then ret (VDict (fallback_analysis company_name content))
        else backed world (request world self OpenAI company_name content)
               openai_reply (VDict (fallback_analysis company_name content))
    end.
Proof. destruct b; reflexivity. Qed.

Lemma backed_cases (post : M W response) (pick : value -> outcome value)
  (otherwise : value) (w : W) :
  exists v w',
    backed world post pick otherwise w = (Ok v, w') /\
    (v = otherwise \/
     exists resp envelope text fragment,
       post w = (Ok resp, w') /\
       raise_for_status resp = Ok tt /\
       json_loads world (body resp) = Ok envelope /\
       pick envelope = Ok (VStr text) /\
       re_search_braces text = Some fragment /\
       json_loads world fragment = Ok v).
Proof.
  unfold backed. run.
  destruct (post w) as [[resp|e] w1] eqn:Epost; [|eauto 6].
  destruct (raise_for_status resp) as [[]|e] eqn:Estatus; [|eauto 6].
  destruct (json_loads world (body resp)) as [envelope|e] eqn:Eenvelope;
    [|eauto 6].
  destruct (pick envelope) as [[| | |text| |]|e] eqn:Epick; run; eauto 6.
  destruct (re_search_braces text) as [fragment|] eqn:Esearch; run;
    [|eauto 6].
  destruct (json_loads world fragment) as [v|e] eqn:Eloads; [|eauto 6].
  exists v, w1. split; [reflexivity|]. right.
  exists resp, envelope, text, fragment. auto 10.
Qed.

Lemma backed_malformed (post : M W response) (pick : value -> outcome value)
  (otherwise : value) (w : W) resp w1 envelope text fragment e :
  post w = (Ok resp, w1) ->
  raise_for_status resp = Ok tt ->
  json_loads world (body resp) = Ok envelope ->
  pick envelope = Ok (VStr text) ->
  re_search_braces text = Some fragment ->
  json_loads world fragment = Raise e ->
  backed world post pick otherwise w = (Ok otherwise, w1).
Proof.
  intros Hpost Hstatus Henv Hpick Hsearch Hloads.
  unfold backed. run.
  rewrite Hpost, Hstatus, Henv, Hpick. run.
  rewrite Hsearch. run. rewrite Hloads. reflexivity.
Qed.

(** C3, amended: no analysis raises; the rule-based one always fills all
    five fields with non-empty strings; a model-backed one returns either
    that rule-based result or, unchecked, the value [json.loads] gives for
    the JSON-looking fragment of the backend's reply: its key is
    configured, the request it sent in state [w] was answered without an
    HTTP error, the body parsed, the reply text picked out of it holds the
    fragment, and the result is what [json.loads] made of that fragment. *)
Theorem analyze_total (b : backend) (company_name : cell) (content : string)
  (w : W) :
  complete_analysis (VDict (fallback_analysis company_name content)) = true /\
  exists v w',
    analyze world self b company_name content w = (Ok v, w') /\
    (v = VDict (fallback_analysis company_name content) \/
     (configured (key_of self b) = true /\
      answered world self b company_name content w v w')).
Proof.
  split; [apply fallback_analysis_complete|].
  rewrite analyze_unfold. unfold answered.
  destruct b; cbn [key_of reply_of].
  - destruct (configured (gemini_api_key self)); cbn [negb].
    + destruct (backed_cases (request world self Gemini company_name content)
                  gemini_reply (VDict (fallback_analysis company_name content))
                  w) as (v & w' & E & [H|H]).
      * exists v, w'. split; [exact E | left; exact H].
      * exists v, w'. split; [exact E | right; split; [reflexivity|exact H]].
    + do 2 eexists; split; [reflexivity | left; reflexivity].
  - destruct (configured (openai_api_key self)); cbn [negb].
    + destruct (backed_cases (request world self OpenAI company_name content)
                  openai_reply (VDict (fallback_analysis company_name content))
                  w) as (v & w' & E & [H|H]).
      * exists v, w'. split; [exact E | left; exact H].
      * exists v, w'. split; [exact E | right; split; [reflexivity|exact H]].
    + do 2 eexists; split; [reflexivity | left; reflexivity].
Qed.

(** C4: when the reply of the backend holds a JSON-looking fragment that
    does not parse, the analysis is exactly the rule-based analysis of the
    same name and content. *)
Theorem malformed_json_gives_fallback (b : backend) (company_name : cell)
  (content : string) (w : W) :
  malformed_json world self b company_name content w ->
  fst (analyze world self b company_name content w)
  = Ok (VDict (fallback_analysis company_name content)).
Proof.
  intros (resp & w1 & envelope & text & fragment & e
          & Hpost & Hstatus & Henv & Hpick & Hsearch & Hloads).
  rewrite analyze_unfold.
  destruct b.
  - destruct (negb (configured (gemini_api_key self))); [reflexivity|].
    erewrite backed_malformed; eauto.
  - destruct (negb (configured (openai_api_key self))); [reflexivity|].
    erewrite backed_malformed; eauto.
Qed.

End Analysis.

(** C3, as stated, fails: a backend that replies with the empty JSON object
    makes [analyze_with_gemini] return an analysis without any field. *)
Lemma analyze_with_gemini_empty_object :
  fst (analyze_with_gemini (Script.world Scenario.empty_object_reply)
         Scenario.gemini_only (Str "Acme") "We bake bread" [])
  = Ok (VDict []) /\
  complete_analysis (VDict []) = false.
Proof. split; reflexivity. Qed.

Lemma malformed_json_gives_fallback_witness :
  fst (analyze_with_gemini (Script.world Scenario.broken_reply)
         Scenario.gemini_only (Str "Acme") "We bake bread" [])
  = Ok (VDict (fallback_analysis (Str "Acme") "We bake bread")).
Proof.
  apply (malformed_json_gives_fallback (Script.world Scenario.broken_reply)
           Scenario.gemini_only Gemini (Str "Acme") "We bake bread" []).
  unfold malformed_json.
  do 6 eexists.
  repeat split; try reflexivity.
Defined.

(** ** Enriching one company *)

Section Enrich.

Context {W : Type} (world : World W) (self : CompanyEnricher).

Ltac run_local :=
  cbv beta iota delta
    [bind lift ret raise try_except try_except_only
     on_world set_result update_result get_result run_local sleep fst snd].

Lemma enrich_company_shape (company_name : cell) (w : W) :
  exists website industry size summary target pitch w',
    enrich_company world self company_name w
    = (Ok (record_of (value_of_cell company_name) (VStr website)
             industry size summary target pitch), w').
Proof.
  unfold enrich_company, enrich_steps. run_local.
  destruct (find_company_website world company_name w) as [[website|e] w1].
  2: { do 7 eexists. reflexivity. }
  destruct (PyStr.nonempty website).
  - destruct (scrape_website_content world website w1) as [[content|e] w2].
    2: { do 7 eexists. reflexivity. }
    destruct (PyStr.nonempty content).
    + match goal with
      | |- context [match ?m w2 with _ => _ end] =>
          destruct (m w2) as [[analysis|e] w3]
      end.
      2: { do 7 eexists. reflexivity. }
      destruct (analysis_update analysis) as [fields|e] eqn:E.
      2: { do 7 eexists. reflexivity. }
      destruct analysis; try discriminate. injection E as <-.
      do 7 eexists. reflexivity.
    + destruct company_name; simpl; do 7 eexists; reflexivity.
  - destruct company_name; simpl; do 7 eexists; reflexivity.
Qed.

Lemma first_accessible_spec (patterns : list string) (w : W) :
  exists found w',
    first_accessible world patterns w = (Ok found, w') /\
    match found with
    | Some url => first_passing world patterns w url w'
    | None => rejected world patterns w w'
    end.
Proof.
  revert w; induction patterns as [|p rest IH]; intros w.
  - exists None, w. split; [reflexivity | constructor].
  - cbn [first_accessible].
    assert (Hurl : (if negb (PyStr.startswith "www" p)
                    then "https://" ++ p else "https://" ++ p)
                   = "https://" ++ p)
      by (destruct (negb (PyStr.startswith "www" p)); reflexivity).
    rewrite Hurl. unfold bind.
    destruct (is_website_accessible_total world ("https://" ++ p) w)
      as (b & w1 & E).
    rewrite E. destruct b.
    + exists (Some ("https://" ++ p)), w1. split; [reflexivity|].
      exists [], p, rest, w. repeat split; [constructor | exact E].
    + destruct (IH w1) as (found & w' & E' & H).
      exists found, w'. split; [exact E'|].
      destruct found as [url|].
      * destruct H as (before & q & after & wp & -> & -> & Hrej & Hacc).
        exists (p :: before), q, after, wp.
        repeat split; [econstructor; eauto | exact Hacc].
      * econstructor; eauto.
Qed.

(** On a [str] the resolution returns the first candidate that passes the
    probe, or the unvalidated best guess when none does; either way a URL
    that is not empty. *)
Lemma find_company_website_of_string (name : string) (w : W) :
  exists url w',
    find_company_website world (Str name) w = (Ok url, w') /\
    PyStr.nonempty url = true /\
    (first_passing world (candidates name) w url w' \/
     (rejected world (candidates name) w w' /\ url = best_guess name)).
Proof.
  unfold find_company_website. run_local.
  destruct (first_accessible_spec (candidates name) w)
    as (found & w' & E & H).
  unfold candidates in E. cbv zeta in E. rewrite E.
  destruct found as [url|]; do 2 eexists; (split; [reflexivity|]).
  - split; [|left; exact H].
    destruct H as (before & p & after & wp & _ & -> & _). reflexivity.
  - split; [reflexivity | right; split; [exact H | reflexivity]].
Qed.

(** the record for a name that is not a [str] *)
Lemma enrich_company_of_number (shown : string) (w : W) :
  enrich_company world self (Num shown) w
  = (Ok (record_of (VNum shown) (VStr EmptyString) (VStr "Unknown")
           (VStr "Unknown") (VStr ("Error processing " ++ shown))
           (VStr "Unknown") (VStr "Please contact us for custom solution")),
     time_sleep world 500 w).
Proof. reflexivity. Qed.

(** the record for a [str]: the website is the URL the resolution gave *)
Lemma enrich_company_of_string (name : string) (w : W) :
  exists url industry size summary target pitch w',
    enrich_company world self (Str name) w
    = (Ok (record_of (VStr name) (VStr url) industry size summary target
             pitch), w') /\
    PyStr.nonempty url = true /\
    fst (find_company_website world (Str name) w) = Ok url.
Proof.
  destruct (find_company_website_of_string name w)
    as (url & w1 & E & Hurl & _).
  unfold enrich_company, enrich_steps. run_local.
  rewrite E, Hurl.
  destruct (scrape_website_content world url w1) as [[content|e] w2].
  2: { do 7 eexists. split; [reflexivity | auto]. }
  destruct (PyStr.nonempty content).
  - match goal with
    | |- context [match ?m w2 with _ => _ end] =>
        destruct (m w2) as [[analysis|e] w3]
    end.
    2: { do 7 eexists. split; [reflexivity | auto]. }
    destruct (analysis_update analysis) as [fields|e] eqn:Ea.
    2: { do 7 eexists. split; [reflexivity | auto]. }
    destruct analysis; try discriminate. injection Ea as <-.
    do 7 eexists. split; [reflexivity | auto].
  - simpl. do 7 eexists. split; [reflexivity | auto].
Qed.

(** C2 at a name that is not a [str] (an empty or numeric cell of the
    CSV): [enrich_company] never raises, whatever the name; for such a name
    it returns the record of its [except] branch, whose website field is
    the empty string, where the record [process_csv] substitutes on an
    error says "Unknown". *)
Theorem enrich_company_degraded_website_empty (shown : string) (w : W) :
  (forall company_name w0,
     exists record w',
       enrich_company world self company_name w0 = (Ok record, w')) /\
  exists record,
    fst (enrich_company world self (Num shown) w) = Ok record /\
    field "industry" record = Some (VStr "Unknown") /\
    field "company_size" record = Some (VStr "Unknown") /\
    field "summary_from_llm" record
    = Some (VStr ("Error processing " ++ shown)) /\
    field "target_customer" record = Some (VStr "Unknown") /\
    field "automation_pitch_from_llm" record
    = Some (VStr "Please contact us for custom solution") /\
    field "website" record = Some (VStr EmptyString) /\
    field "website" (basic_record (Num shown)) = Some (VStr "Unknown").
Proof.
  split.
  - intros company_name w0.
    destruct (enrich_company_shape company_name w0)
      as (website & industry & size & summary & target & pitch & w' & E).
    eauto.
  - eexists. rewrite enrich_company_of_number. simpl.
    repeat split; reflexivity.
Qed.

(** C7: on a [str] the resolution never fails: it returns the first
    candidate that passes the probe, or the best guess when none does, a
    non-empty URL that becomes the website of the record; on a name that is
    not a [str]
    [re.sub] raises, the handler of [find_company_website] raises again on
    [company_name.lower()], and the record of [enrich_company] has an empty
    website. *)
Theorem find_company_website_raises_on_number (shown : string) (w : W) :
  (forall name w0,
     exists url w1 record,
       find_company_website world (Str name) w0 = (Ok url, w1) /\
       (first_passing world (candidates name) w0 url w1 \/
        (rejected world (candidates name) w0 w1 /\ url = best_guess name)) /\
       PyStr.nonempty url = true /\
       fst (enrich_company world self (Str name) w0) = Ok record /\
       field "website" record = Some (VStr url)) /\
  find_company_website world (Num shown) w = (Raise AttributeError, w) /\
  exists record,
    fst (enrich_company world self (Num shown) w) = Ok record /\
    field "website" record = Some (VStr EmptyString).
Proof.
  split; [|split].
  - intros name w0.
    destruct (find_company_website_of_string name w0)
      as (url & w1 & Efind & Hurl & Hfirst).
    destruct (enrich_company_of_string name w0)
      as (url' & industry & size & summary & target & pitch & w' & E & _
          & Hfind).
    rewrite Efind in Hfind. injection Hfind as <-.
    exists url, w1. eexists. rewrite E. repeat split; auto.
  - reflexivity.
  - eexists. rewrite enrich_company_of_number. split; reflexivity.
Qed.

End Enrich.

(** ** The batch runner *)

Lemma index_of_found (name : string) (cols : list string) :
  existsb (String.eqb name) cols = true ->
  exists i, index_of name cols = Some i.
Proof.
  induction cols as [|c cols IH]; simpl; [discriminate|].
  destruct (String.eqb name c); simpl; [eauto|].
  intros H. destruct (IH H) as [i ->]. simpl. eauto.
Qed.

Lemma shaped_keys (company_name : cell) (record : Dict.t) :
  shaped company_name record ->
  Dict.keys record = seven_fields /\
  field "company_name" record = Some (value_of_cell company_name).
Proof.
  intros (website & industry & size & summary & target & pitch & ->).
  split; reflexivity.
Qed.

Lemma DataFrame_columns (records : list Dict.t) (cols : list string) :
  Forall (fun record => Dict.keys record = seven_fields) records ->
  cols = seven_fields \/ (cols = [] /\ records <> []) ->
  fold_left (fun acc d => fold_left add_column (Dict.keys d) acc) records cols
  = seven_fields.
Proof.
  intros Hall; revert cols; induction Hall as [|record records Hk _ IH];
    intros cols [->|[-> Hne]]; simpl; try reflexivity; try congruence.
  - rewrite Hk. apply IH. left. reflexivity.
  - rewrite Hk. apply IH. left. reflexivity.
Qed.

Lemma DataFrame_of_shaped (records : list Dict.t) :
  Forall (fun record => exists name, shaped name record) records ->
  records <> [] ->
  fcolumns (DataFrame records) = seven_fields.
Proof.
  intros Hall Hne.
  unfold DataFrame; simpl. apply DataFrame_columns; [|auto].
  eapply Forall_impl; [|exact Hall].
  intros record [name H]. apply (shaped_keys name record H).
Qed.

Lemma iterrows_from_rows (df : table) (position : nat)
  (rest : list (list cell)) :
  map snd (iterrows_from df position rest) = rest.
Proof.
  revert position; induction rest as [|row rest IH]; intros position;
    simpl; [reflexivity|]. rewrite IH. reflexivity.
Qed.

Lemma iterrows_from_firstn (n : nat) (df : table) (position : nat)
  (rest : list (list cell)) :
  firstn n (iterrows_from df position rest)
  = iterrows_from df position (firstn n rest).
Proof.
  revert n position; induction rest as [|row rest IH]; intros [|n] position;
    simpl; try reflexivity. rewrite IH. reflexivity.
Qed.

Lemma iterrows_from_length (df : table) (position : nat)
  (rest : list (list cell)) :
  List.length (iterrows_from df position rest) = List.length rest.
Proof.
  rewrite <- (iterrows_from_rows df position rest) at 2.
  rewrite length_map. reflexivity.
Qed.

Lemma iterrows_from_all (P : label -> Prop) (df : table) (position : nat)
  (rest : list (list cell)) :
  (forall i, position <= i < position + List.length rest -> P (index df i)) ->
  Forall (fun turn => P (fst turn)) (iterrows_from df position rest).
Proof.
  revert position; induction rest as [|row rest IH]; intros position H;
    simpl; constructor.
  - apply H. simpl. lia.
  - apply IH. intros i Hi. apply H. simpl. lia.
Qed.

Lemma iterrows_from_some (P : label -> Prop) (df : table) (position : nat)
  (rest : list (list cell)) (i : nat) :
  position <= i < position + List.length rest -> P (index df i) ->
  Exists (fun turn => P (fst turn)) (iterrows_from df position rest).
Proof.
  revert position; induction rest as [|row rest IH]; intros position Hi HP;
    simpl in *; [lia|].
  destruct (Nat.eq_dec i position) as [->|Hne].
  - apply Exists_cons_hd. exact HP.
  - apply Exists_cons_tl. apply IH; [lia | exact HP].
Qed.

Lemma Forall2_turns {B : Type} (P : list cell -> B -> Prop)
  (todo : list (label * list cell)) (records : list B) :
  Forall2 (fun turn record => P (snd turn) record) todo records ->
  Forall2 P (map snd todo) records.
Proof. induction 1; simpl; constructor; auto. Qed.

Section Batch.

Context {W : Type} (world : World W) (self : CompanyEnricher).

Lemma enrich_rows_total (df : table) (todo : list (label * list cell))
  (enriched_data : list Dict.t) (w : W) :
  has_column "company_name" df = true ->
  Forall (fun turn => numeric (fst turn) = true) todo ->
  exists records w',
    enrich_rows world self df todo enriched_data w
    = (Ok (enriched_data ++ records)%list, w') /\
    Forall2 (fun turn record =>
               exists name,
                 row_get df (snd turn) "company_name" = Ok name /\
                 shaped name record)
            todo records.
Proof.
  intros Hcol Hnum. destruct (index_of_found _ _ Hcol) as [i Hi].
  revert enriched_data w.
  induction Hnum as [|[idx row] rest Hidx _ IH]; intros enriched_data w.
  - exists [], w. rewrite app_nil_r. split; [reflexivity | constructor].
  - assert (Hget : row_get df row "company_name"
                   = Ok (nth i row (Num "nan")))
      by (unfold row_get; rewrite Hi; reflexivity).
    assert (Hplus : plus_one idx = Ok tt)
      by (destruct idx; try discriminate Hidx; reflexivity).
    cbn [enrich_rows]. rewrite Hget, Hplus.
    cbv beta iota delta [bind lift ret try_except].
    destruct (enrich_company_shape world self (nth i row (Num "nan")) w)
      as (website & industry & size & summary & target & pitch & w1 & ->).
    destruct (IH (enriched_data ++
                  [record_of (value_of_cell (nth i row (Num "nan")))
                     (VStr website) industry size summary target pitch])%list
                 w1) as (records & w2 & -> & Hall).
    eexists (_ :: records), w2. rewrite <- app_assoc. split; [reflexivity|].
    constructor; [|exact Hall].
    eexists. split; [exact Hget|]. do 6 eexists. reflexivity.
Qed.

Lemma enrich_rows_raises (df : table) (todo : list (label * list cell))
  (enriched_data : list Dict.t) (w : W) :
  has_column "company_name" df = true ->
  Exists (fun turn => numeric (fst turn) = false) todo ->
  exists w', enrich_rows world self df todo enriched_data w
             = (Raise TypeError, w').
Proof.
  intros Hcol Hsome. destruct (index_of_found _ _ Hcol) as [i Hi].
  revert enriched_data w.
  induction todo as [|[idx row] rest IH]; intros enriched_data w;
    [inversion Hsome|].
  assert (Hget : row_get df row "company_name" = Ok (nth i row (Num "nan")))
    by (unfold row_get; rewrite Hi; reflexivity).
  cbn [enrich_rows]. rewrite Hget.
  destruct (numeric idx) eqn:Hidx.
  - assert (Hplus : plus_one idx = Ok tt)
      by (destruct idx; try discriminate Hidx; reflexivity).
    rewrite Hplus. cbv beta iota delta [bind lift ret try_except].
    destruct (enrich_company_shape world self (nth i row (Num "nan")) w)
      as (website & industry & size & summary & target & pitch & w1 & ->).
    apply IH. inversion Hsome as [? ? Hhead|? ? Htail]; subst;
      [cbn [fst] in Hhead; congruence | exact Htail].
  - assert (Hplus : plus_one idx = Raise TypeError)
      by (destruct idx; try discriminate Hidx; reflexivity).
    rewrite Hplus. exists w. reflexivity.
Qed.

(** C1: when the input file has the 'company_name' column and every row
    has a number as its label (so for the labels 0, 1, 2, ... that
    [pd.read_csv] gives by default), the loop of [process_csv] builds one
    record for each row, in the order of the rows, each with the seven
    fields in their fixed order; the frame built from them has these seven
    columns and one row per record; [process_csv] returns that frame, and
    raises only when writing it failed under both file names.  But when a
    row has a label that is no number (a [str], for a line with one field
    more than the header), the message logged before the [try] raises
    TypeError, and [process_csv] raises it: no frame is built or
    written. *)
Theorem process_csv_record_per_numbered_row
  (input_file : string) (output_file : option string) (df : table)
  (w w1 : W) :
  read_csv world input_file w = (Ok df, w1) ->
  has_column "company_name" df = true ->
  ((forall position,
       position < List.length (rows df) ->
       numeric (index df position) = true) ->
   exists records w2,
     enrich_rows world self df (iterrows df) [] w1 = (Ok records, w2) /\
     Forall2 (fun row record =>
                exists name,
                  row_get df row "company_name" = Ok name /\
                  field "company_name" record = Some (value_of_cell name) /\
                  Dict.keys record = seven_fields)
             (rows df) records /\
     List.length records = List.length (rows df) /\
     List.length (frows (DataFrame records)) = List.length (rows df) /\
     (rows df <> [] -> fcolumns (DataFrame records) = seven_fields) /\
     match fst (process_csv world self input_file output_file w) with
     | Ok out => out = Some (DataFrame records)
     | Raise e =>
         exists path e1 w3 backup_path w4 w5,
           to_csv world (DataFrame records) path w2 = (Raise e1, w3) /\
           to_csv world (DataFrame records) backup_path w4 = (Raise e, w5)
     end) /\
  (forall position,
      position < List.length (rows df) ->
      numeric (index df position) = false ->
      exists w2,
        enrich_rows world self df (iterrows df) [] w1
        = (Raise TypeError, w2) /\
        process_csv world self input_file output_file w
        = (Raise TypeError, w2)).
Proof.
  intros Hread Hcol. split.
  - intros Hnum.
    destruct (enrich_rows_total df (iterrows df) [] w1 Hcol)
      as (records & w2 & Hrows & Hall).
    { apply (iterrows_from_all (fun idx => numeric idx = true) df 0
               (rows df)).
      intros i Hi. apply Hnum. lia. }
    simpl in Hrows.
    apply (Forall2_turns
             (fun row record =>
                exists name,
                  row_get df row "company_name" = Ok name /\
                  shaped name record)) in Hall.
    unfold iterrows in Hall. rewrite iterrows_from_rows in Hall.
    exists records, w2.
    assert (Hshape : Forall (fun record => exists name, shaped name record)
                       records).
    { clear -Hall. induction Hall as [|row record rows' records' H _ IH];
        constructor; auto.
      destruct H as (name & _ & H). eauto. }
    assert (Hlen : List.length records = List.length (rows df))
      by (symmetry; eapply Forall2_length, Hall).
    split; [exact Hrows|]. split; [|split; [|split; [|split]]].
    + eapply Forall2_impl; [|exact Hall].
      intros row record (name & Hget & Hs).
      destruct (shaped_keys name record Hs). eauto.
    + exact Hlen.
    + exact Hlen.
    + intros Hne. apply DataFrame_of_shaped; [exact Hshape|].
      intros ->. inversion Hall as [E|]. congruence.
    + unfold process_csv.
      cbv beta iota delta [bind lift ret raise try_except try_except_only].
      rewrite Hread, Hcol. cbn [negb]. rewrite Hrows.
      match goal with
      | |- context [to_csv world (DataFrame records) ?path w2] =>
          destruct (to_csv world (DataFrame records) path w2)
            as [[[]|e1] w3] eqn:Ewrite
      end; [reflexivity|].
      destruct (time_time world w3) as [now w4].
      match goal with
      | |- context [to_csv world (DataFrame records) ?path w4] =>
          destruct (to_csv world (DataFrame records) path w4)
            as [[[]|e2] w5] eqn:Ebackup
      end; [reflexivity|].
      cbn [fst]. eauto 10.
  - intros position Hposition Hlabel.
    destruct (enrich_rows_raises df (iterrows df) [] w1 Hcol) as [w2 Hrows].
    { apply (iterrows_from_some (fun idx => numeric idx = false) df 0
               (rows df) position); [lia | exact Hlabel]. }
    exists w2. split; [exact Hrows|].
    unfold process_csv.
    cbv beta iota delta [bind lift ret raise try_except try_except_only].
    rewrite Hread, Hcol. cbn [negb]. rewrite Hrows. reflexivity.
Qed.

End Batch.

Lemma process_csv_record_per_numbered_row_witness :
  (exists records,
     fst (process_csv (Script.world Scenario.disk) Scenario.no_keys
            "leads.csv" None [])
     = Ok (Some (DataFrame records)) /\
     List.length records = 2 /\
     fcolumns (DataFrame records) = seven_fields) /\
  process_csv (Script.world Cases.shelf) Scenario.no_keys
    "unquoted.csv" None []
  = (Raise TypeError, [Script.ReadCsv "unquoted.csv"]).
Proof.
  split.
  - destruct (process_csv_record_per_numbered_row
                (Script.world Scenario.disk)
                Scenario.no_keys "leads.csv" None Scenario.leads
                [] [Script.ReadCsv "leads.csv"] eq_refl eq_refl)
      as [Hrows _].
    destruct Hrows as (records & w2 & _ & _ & Hlen & _ & Hcols & Hout).
    { intros position _. reflexivity. }
    exists records. split; [|split].
    + destruct (fst (process_csv (Script.world Scenario.disk)
                       Scenario.no_keys "leads.csv" None [])) as [out|e] eqn:E.
      * rewrite Hout. reflexivity.
      * vm_compute in E. discriminate E.
    + exact Hlen.
    + apply Hcols. discriminate.
  - destruct (process_csv_record_per_numbered_row
                (Script.world Cases.shelf)
                Scenario.no_keys "unquoted.csv" None Cases.unquoted
                [] [Script.ReadCsv "unquoted.csv"] eq_refl eq_refl)
      as [_ Hraise].
    destruct (Hraise 0) as (w2 & Hloop & Hrun);
      [simpl; lia | reflexivity |].
    rewrite Hrun. f_equal.
    vm_compute in Hloop. congruence.
Defined.

(** ** A table without the required column *)

Section MissingColumn.

Context {W : Type} (world : World W) (self : CompanyEnricher).

(** C8, amended: when the table lacks the 'company_name' column no record
    is enriched and nothing happens after the file is read: [process_csv]
    raises ValueError with the fixed text "CSV must contain 'company_name'
    column"; the web interface shows an error, lists every available
    column name and does not start processing. *)
Theorem missing_column_halts
  (input_file : string) (output_file : option string) (df : table)
  (w w1 : W) :
  read_csv world input_file w = (Ok df, w1) ->
  has_column "company_name" df = false ->
  process_csv world self input_file output_file w
  = (Raise (ValueError "CSV must contain 'company_name' column"), w1) /\
  (forall (A : Type) (process_companies : table -> M W A)
          (start_enrichment : bool) (w' : W),
      main_upload (Ok df) start_enrichment process_companies w'
      = (Ok ([ st_error "CSV must contain a 'company_name' column";
               st_info ("Available columns: "
                        ++ PyStr.join ", " (columns df));
               st_warning
                 "Please upload a valid CSV file with a 'company_name' column to continue." ],
             None),
         w')) /\
  (forall c, In c (columns df) ->
     PyStr.contains c ("Available columns: " ++ PyStr.join ", " (columns df))
     = true).
Proof.
  intros Hread Hcol. split; [|split].
  - unfold process_csv.
    cbv beta iota delta [bind lift ret raise try_except try_except_only].
    rewrite Hread, Hcol. reflexivity.
  - intros A process_companies start_enrichment w'.
    unfold main_upload, preview_upload. rewrite Hcol.
    cbn [negb fst snd]. rewrite Hcol. reflexivity.
  - intros c Hin. apply contains_app_r, contains_join, Hin.
Qed.

End MissingColumn.

(** C8, as stated, fails for [process_csv]: the text of its ValueError does
    not name the columns of the table. *)
Lemma process_csv_error_omits_columns :
  fst (process_csv (Script.world Scenario.disk) Scenario.no_keys
         "contacts.csv" None [])
  = Raise (ValueError "CSV must contain 'company_name' column") /\
  In "firm" (columns Scenario.contacts) /\
  PyStr.contains "firm" "CSV must contain 'company_name' column" = false.
Proof. split; [reflexivity | split; [left; reflexivity | reflexivity]]. Qed.

Lemma missing_column_halts_witness :
  process_csv (Script.world Scenario.disk) Scenario.no_keys
    "contacts.csv" None []
  = (Raise (ValueError "CSV must contain 'company_name' column"),
     [Script.ReadCsv "contacts.csv"]) /\
  PyStr.contains "firm"
    ("Available columns: " ++ PyStr.join ", " (columns Scenario.contacts))
  = true.
Proof.
  destruct (missing_column_halts (Script.world Scenario.disk)
              Scenario.no_keys "contacts.csv" None Scenario.contacts
              [] [Script.ReadCsv "contacts.csv"] eq_refl eq_refl)
    as (Hhalt & _ & Hlist).
  split; [exact Hhalt|].
  apply Hlist. left. reflexivity.
Defined.

(** * Further properties of the code *)

(** ** Picking the JSON fragment *)

Lemma from_open_brace_skip (pre rest : string) :
  lacks 123 pre = true ->
  from_open_brace (pre ++ String "{" rest) = Some (String "{" rest).
Proof.
  induction pre as [|c pre IH]; simpl; [reflexivity|].
  intros H. apply andb_true_iff in H. destruct H as [Hc Hpre].
  apply negb_true_iff in Hc. rewrite Hc. auto.
Qed.

Lemma upto_close_brace_none (s : string) :
  lacks 125 s = true -> upto_close_brace s = None.
Proof.
  induction s as [|c s IH]; simpl; [reflexivity|].
  intros H. apply andb_true_iff in H. destruct H as [Hc Hs].
  apply negb_true_iff in Hc. rewrite (IH Hs), Hc. reflexivity.
Qed.

Lemma upto_close_brace_last (mid suf : string) :
  lacks 125 suf = true ->
  upto_close_brace (mid ++ String "}" suf) = Some (mid ++ "}").
Proof.
  intros Hsuf. induction mid as [|c mid IH]; simpl.
  - rewrite (upto_close_brace_none suf Hsuf). reflexivity.
  - rewrite IH. reflexivity.
Qed.

(** X1: the fragment handed to [json.loads] runs from the first opening
    brace of the reply to its last closing brace, whatever lies between. *)
Theorem re_search_braces_span (pre mid suf : string) :
  lacks 123 pre = true ->
  lacks 125 suf = true ->
  re_search_braces (pre ++ String "{" (mid ++ String "}" suf))
  = Some (String "{" (mid ++ "}")).
Proof.
  intros Hpre Hsuf. unfold re_search_braces.
  rewrite (from_open_brace_skip pre _ Hpre).
  rewrite (upto_close_brace_last mid suf Hsuf). reflexivity.
Qed.

Lemma re_search_braces_span_witness :
  re_search_braces "Two answers: {a} or {b}. Pick one!" = Some "{a} or {b}".
Proof.
  apply (re_search_braces_span "Two answers: " "a} or {b" ". Pick one!");
    reflexivity.
Defined.

Lemma from_open_brace_head (s t : string) :
  from_open_brace s = Some t -> exists r, t = String "{" r.
Proof.
  induction s as [|c s IH]; simpl; [discriminate|].
  destruct (Nat.eqb (PyStr.code c) 123) eqn:E; [|exact IH].
  intros [= <-]. exists s. f_equal.
  apply Nat.eqb_eq in E. unfold PyStr.code in E.
  rewrite <- (ascii_nat_embedding c), E. reflexivity.
Qed.

Lemma re_search_braces_head (text fragment : string) :
  re_search_braces text = Some fragment ->
  PyStr.startswith "{" fragment = true.
Proof.
  unfold re_search_braces.
  destruct (from_open_brace text) as [[|c r]|] eqn:E; try discriminate.
  destruct (from_open_brace_head _ _ E) as [r' [= -> ->]].
  destruct (upto_close_brace r'); [|discriminate].
  intros [= <-]. destruct s; reflexivity.
Qed.

(** ** Keywords that can never decide *)

Lemma prefix_split (k h : string) :
  prefix k h = true -> exists q, h = k ++ q.
Proof.
  revert k; induction h as [|c h IH]; intros [|x k]; simpl;
    try discriminate; eauto.
  destruct (ascii_dec x c) as [->|]; [|discriminate].
  intros H. destruct (IH k H) as [q ->]. eauto.
Qed.

Lemma contains_split (k h : string) :
  PyStr.contains k h = true -> exists p q, h = p ++ k ++ q.
Proof.
  induction h as [|c h IH]; cbn [PyStr.contains].
  - intros H. destruct (prefix_split _ _ H) as [q ->].
    exists EmptyString, q. reflexivity.
  - intros H. apply orb_true_iff in H. destruct H as [H|H].
    + destruct (prefix_split _ _ H) as [q ->].
      exists EmptyString, q. reflexivity.
    + destruct (IH H) as (p & q & ->). exists (String c p), q. reflexivity.
Qed.

Lemma contains_inside (p k q : string) :
  PyStr.contains k (p ++ k ++ q) = true.
Proof. apply contains_app_r, contains_of_prefix, prefix_app. Qed.

Lemma append_assoc (a b c : string) : (a ++ b) ++ c = a ++ b ++ c.
Proof. induction a as [|x a IH]; simpl; congruence. Qed.

(** a keyword that occurs inside another keyword is found with it *)
Lemma contains_part (before part after h : string) :
  PyStr.contains (before ++ part ++ after) h = true ->
  PyStr.contains part h = true.
Proof.
  intros H. destruct (contains_split _ _ H) as (p & q & ->).
  replace (p ++ (before ++ part ++ after) ++ q)
    with ((p ++ before) ++ part ++ (after ++ q)).
  - apply contains_inside.
  - rewrite !append_assoc. reflexivity.
Qed.

(** X2: 'retail' holds 'ai' and 'fintech' holds 'tech', so content with
    either word is Technology; Retail is only reached through 'ecommerce'
    or 'shopping', Finance only through 'financial' or 'banking'. *)
Theorem shadowed_keywords (company_name : cell) (website_content : string) :
  let lowered := PyStr.lower website_content in
  let industry :=
    field "industry" (fallback_analysis company_name website_content) in
  (PyStr.contains "retail" lowered = true \/
   PyStr.contains "fintech" lowered = true ->
   industry = Some (VStr "Technology")) /\
  (industry = Some (VStr "Retail") ->
   PyStr.contains "ecommerce" lowered = true \/
   PyStr.contains "shopping" lowered = true) /\
  (industry = Some (VStr "Finance") ->
   PyStr.contains "financial" lowered = true \/
   PyStr.contains "banking" lowered = true).
Proof.
  intros lowered industry. subst industry.
  rewrite fallback_industry. unfold detect_industry. fold lowered.
  assert (Hretail : PyStr.contains "retail" lowered = true ->
                    any_keyword technology_keywords lowered = true).
  { intros H. apply existsb_exists. exists "ai". split; [simpl; auto|].
    apply (contains_part "ret" "ai" "l"), H. }
  assert (Hfintech : PyStr.contains "fintech" lowered = true ->
                     any_keyword technology_keywords lowered = true).
  { intros H. apply existsb_exists. exists "tech". split; [simpl; auto|].
    apply (contains_part "fin" "tech" EmptyString), H. }
  destruct (any_keyword technology_keywords lowered) eqn:Et.
  { repeat split; auto; discriminate. }
  split; [|split].
  - intros [H|H]; [apply Hretail in H | apply Hfintech in H]; discriminate.
  - destruct (any_keyword finance_keywords lowered); [discriminate|].
    destruct (any_keyword healthcare_keywords lowered); [discriminate|].
    destruct (any_keyword retail_keywords lowered) eqn:Er; [|discriminate].
    intros _. unfold any_keyword, retail_keywords in Er. cbn [existsb] in Er.
    destruct (PyStr.contains "retail" lowered);
      [specialize (Hretail eq_refl); discriminate|].
    cbn [orb] in Er. rewrite orb_false_r in Er.
    apply orb_true_iff in Er. exact Er.
  - destruct (any_keyword finance_keywords lowered) eqn:Ef.
    + intros _. unfold any_keyword, finance_keywords in Ef.
      cbn [existsb] in Ef.
      destruct (PyStr.contains "fintech" lowered);
        [specialize (Hfintech eq_refl); discriminate|].
      cbn [orb] in Ef. rewrite orb_false_r in Ef.
      apply orb_true_iff in Ef. exact Ef.
    + destruct (any_keyword healthcare_keywords lowered); [discriminate|].
      destruct (any_keyword retail_keywords lowered); discriminate.
Qed.

Lemma shadowed_keywords_witness :
  field "industry" (fallback_analysis (Str "Acme") "A Retail chain")
  = Some (VStr "Technology").
Proof.
  apply (shadowed_keywords (Str "Acme") "A Retail chain").
  left. reflexivity.
Defined.

(** ** Scraped text is one line *)

Section AllChars.

Variable p : ascii -> bool.

Lemma all_chars_app (a b : string) :
  all_chars p (a ++ b) = all_chars p a && all_chars p b.
Proof.
  induction a as [|c a IH]; simpl; [reflexivity|].
  rewrite IH. apply andb_assoc.
Qed.

Lemma all_chars_rev_string (acc s : string) :
  all_chars p acc = true -> all_chars p s = true ->
  all_chars p (PyStr.rev_string acc s) = true.
Proof.
  revert acc; induction s as [|c s IH]; intros acc Hacc Hs; simpl; auto.
  simpl in Hs. apply andb_true_iff in Hs. destruct Hs as [Hc Hs].
  apply IH; [simpl; rewrite Hc, Hacc; reflexivity | exact Hs].
Qed.

Lemma all_chars_lstrip (s : string) :
  all_chars p s = true -> all_chars p (PyStr.lstrip s) = true.
Proof.
  induction s as [|c s IH]; simpl; auto.
  intros H. destruct (PyStr.is_space c); [|exact H].
  apply andb_true_iff in H. tauto.
Qed.

Lemma all_chars_rstrip (s : string) :
  all_chars p s = true -> all_chars p (PyStr.rstrip s) = true.
Proof.
  induction s as [|c s IH]; simpl; auto.
  intros H. apply andb_true_iff in H. destruct H as [Hc Hs].
  specialize (IH Hs).
  destruct (PyStr.rstrip s) as [|x r].
  - destruct (PyStr.is_space c); simpl; [reflexivity|].
    rewrite Hc. reflexivity.
  - change (p c && all_chars p (String x r) = true).
    rewrite Hc, IH. reflexivity.
Qed.

Lemma all_chars_strip (s : string) :
  all_chars p s = true -> all_chars p (PyStr.strip s) = true.
Proof. intros H. apply all_chars_rstrip, all_chars_lstrip, H. Qed.

Lemma all_chars_split2 (cur : string) (skip : bool) (s : string) :
  all_chars p cur = true -> all_chars p s = true ->
  Forall (fun piece => all_chars p piece = true)
         (PyStr.split2_from cur skip s).
Proof.
  revert cur skip; induction s as [|c s IH]; intros cur skip Hcur Hs.
  - constructor; [|constructor]. apply all_chars_rev_string; auto.
  - cbn [PyStr.split2_from].
    simpl in Hs. apply andb_true_iff in Hs. destruct Hs as [Hc Hs].
    destruct skip; [apply IH; auto|].
    destruct (prefix "  " (String c s)).
    + constructor; [apply all_chars_rev_string; auto | apply IH; auto].
    + apply IH; [simpl; rewrite Hc, Hcur; reflexivity | exact Hs].
Qed.

Lemma all_chars_join (sep : string) (parts : list string) :
  all_chars p sep = true ->
  Forall (fun piece => all_chars p piece = true) parts ->
  all_chars p (PyStr.join sep parts) = true.
Proof.
  intros Hsep Hall. induction Hall as [|x [|y rest] Hx Hrest IH].
  - reflexivity.
  - exact Hx.
  - change (PyStr.join sep (x :: y :: rest))
      with (x ++ sep ++ PyStr.join sep (y :: rest)).
    rewrite !all_chars_app, Hx, Hsep, IH. reflexivity.
Qed.

Lemma all_chars_take (n : nat) (s : string) :
  all_chars p s = true -> all_chars p (PyStr.take n s) = true.
Proof.
  unfold PyStr.take. revert s; induction n as [|n IH]; intros [|c s]; simpl;
    auto.
  intros H. apply andb_true_iff in H. destruct H as [Hc Hs].
  rewrite Hc. apply IH, Hs.
Qed.

End AllChars.

Lemma splitlines_single_line (cur : string) (after_cr : bool) (s : string) :
  single_line cur = true ->
  Forall (fun line => single_line line = true)
         (PyStr.splitlines_from cur after_cr s).
Proof.
  revert cur after_cr; induction s as [|c s IH]; intros cur after_cr Hcur.
  - simpl. destruct cur; constructor; [|constructor].
    apply all_chars_rev_string; [reflexivity | exact Hcur].
  - cbn [PyStr.splitlines_from].
    destruct (after_cr && Nat.eqb (PyStr.code c) 10); [apply IH, Hcur|].
    destruct (PyStr.is_linebreak c) eqn:E.
    + constructor; [|apply IH; reflexivity].
      apply all_chars_rev_string; [reflexivity | exact Hcur].
    + apply IH. unfold single_line. simpl. rewrite E. exact Hcur.
Qed.

Lemma clean_text_single_line (text : string) :
  single_line (clean_text text) = true.
Proof.
  unfold clean_text, single_line. apply all_chars_join; [reflexivity|].
  apply Forall_forall. intros chunk Hin.
  apply filter_In in Hin. destruct Hin as [Hin _].
  apply in_flat_map in Hin. destruct Hin as (line & Hline & Hin).
  apply in_map_iff in Hin. destruct Hin as (piece & <- & Hpiece).
  apply in_map_iff in Hline. destruct Hline as (raw & <- & Hraw).
  apply all_chars_strip.
  pose proof (splitlines_single_line EmptyString false text eq_refl) as Hl.
  rewrite Forall_forall in Hl. specialize (Hl raw Hraw).
  pose proof (all_chars_split2 _ EmptyString false (PyStr.strip raw)
                eq_refl (all_chars_strip _ raw Hl)) as Hs.
  rewrite Forall_forall in Hs. apply Hs, Hpiece.
Qed.

(** X3: whatever the page, the scraped content holds no line break. *)
Theorem scrape_website_content_single_line
  {W : Type} (world : World W) (url : string) (w : W) :
  exists text,
    fst (scrape_website_content world url w) = Ok text /\
    single_line text = true.
Proof.
  unfold scrape_website_content, try_except, bind, ret, lift.
  destruct (session_get world url w) as [[r|e] w'];
    [|exists EmptyString; split; reflexivity].
  destruct (raise_for_status r);
    [|exists EmptyString; split; reflexivity].
  destruct (visible_text world (body r)) as [text|e];
    [|exists EmptyString; split; reflexivity].
  eexists; split; [reflexivity|].
  destruct (Nat.ltb 2000 (String.length (clean_text text)));
    [apply all_chars_take|]; apply clean_text_single_line.
Qed.

(** ** What is sent to a generation backend *)

(** X4: contents that agree on their first 1500 characters give the same
    request: nothing beyond them reaches a backend. *)
Theorem request_reads_1500_characters
  {W : Type} (world : World W) (self : CompanyEnricher) (b : backend)
  (company_name : cell) (content content' : string) :
  PyStr.take 1500 content = PyStr.take 1500 content' ->
  request world self b company_name content
  = request world self b company_name content'.
Proof.
  intros H. destruct b; unfold request, gemini_prompt, openai_prompt;
    rewrite H; reflexivity.
Qed.

Lemma request_reads_1500_characters_witness :
  request (Script.world Scenario.disk) Scenario.gemini_only Gemini
    (Str "Acme") (blanks 1500 ++ "bread")
  = request (Script.world Scenario.disk) Scenario.gemini_only Gemini
      (Str "Acme") (blanks 1500 ++ "cakes").
Proof.
  apply (request_reads_1500_characters (Script.world Scenario.disk)
           Scenario.gemini_only Gemini (Str "Acme")).
  vm_compute. reflexivity.
Defined.

(** ** The default name of the output file *)

Lemma replace_absent (old new s : string) :
  PyStr.contains old s = false ->
  PyStr.replace old new s = s.
Proof.
  unfold PyStr.replace. induction s as [|c s IH]; [reflexivity|].
  cbn [PyStr.contains PyStr.replace_from]. intros H.
  apply orb_false_iff in H. destruct H as [Hp Hc].
  rewrite Hp, (IH Hc). reflexivity.
Qed.

Lemma prefix_csv_app (c : ascii) (r : string) :
  prefix ".csv" (String c r) = false ->
  prefix ".csv" (String c (r ++ ".csv")) = false.
Proof.
  cbn [prefix]. destruct (ascii_dec "." c); [|reflexivity].
  destruct r as [|x1 [|x2 [|x3 r]]]; cbn [append prefix]; intros H.
  - reflexivity.
  - destruct (ascii_dec "c" x1); reflexivity.
  - destruct (ascii_dec "c" x1); [|reflexivity].
    destruct (ascii_dec "s" x2); reflexivity.
  - destruct (ascii_dec "c" x1); [|reflexivity].
    destruct (ascii_dec "s" x2); [|reflexivity].
    destruct (ascii_dec "v" x3); [|reflexivity].
    destruct r; discriminate H.
Qed.

Lemma replace_csv_suffix (base : string) :
  PyStr.contains ".csv" base = false ->
  PyStr.replace ".csv" "_enriched.csv" (base ++ ".csv")
  = base ++ "_enriched.csv".
Proof.
  unfold PyStr.replace. induction base as [|c base IH]; [reflexivity|].
  intros H. cbn [PyStr.contains] in H.
  apply orb_false_iff in H. destruct H as [Hp Hc].
  change (String c base ++ ".csv") with (String c (base ++ ".csv")).
  cbn [PyStr.replace_from]. rewrite (prefix_csv_app c base Hp), (IH Hc).
  reflexivity.
Qed.

(** X5: without an output name, 'NAME.csv' is written to
    'NAME_enriched.csv'; an input name without '.csv' is its own output
    name, so the input file is written over. *)
Theorem process_csv_default_output
  {W : Type} (world : World W) (self : CompanyEnricher) (name : string) :
  PyStr.contains ".csv" name = false ->
  process_csv world self (name ++ ".csv") None
  = process_csv world self (name ++ ".csv") (Some (name ++ "_enriched.csv"))
  /\
  process_csv world self name None
  = process_csv world self name (Some name).
Proof.
  intros H. unfold process_csv.
  rewrite (replace_absent _ _ _ H), (replace_csv_suffix _ H).
  split; reflexivity.
Qed.

Lemma process_csv_default_output_witness :
  process_csv (Script.world Scenario.disk) Scenario.no_keys "leads.csv" None
  = process_csv (Script.world Scenario.disk) Scenario.no_keys "leads.csv"
      (Some "leads_enriched.csv").
Proof.
  apply (process_csv_default_output (Script.world Scenario.disk)
           Scenario.no_keys "leads").
  reflexivity.
Defined.

(** ** When the answer of a backend is used *)

Section Answers.

Context {W : Type} (world : World W) (self : CompanyEnricher).

Lemma backed_success (post : M W response) (pick : value -> outcome value)
  (otherwise v : value) (w w' : W) :
  backed world post pick otherwise w = (Ok v, w') ->
  v <> otherwise ->
  exists resp envelope text fragment,
    post w = (Ok resp, w') /\
    raise_for_status resp = Ok tt /\
    json_loads world (body resp) = Ok envelope /\
    pick envelope = Ok (VStr text) /\
    re_search_braces text = Some fragment /\
    json_loads world fragment = Ok v.
Proof.
  unfold backed. run.
  destruct (post w) as [[resp|e] w1]; [|intros [= <- _]; congruence].
  destruct (raise_for_status resp) as [[]|e] eqn:Es;
    [|intros [= <- _]; congruence].
  destruct (json_loads world (body resp)) as [envelope|e] eqn:Ee;
    [|intros [= <- _]; congruence].
  destruct (pick envelope) as [[| | |text| |]|e] eqn:Ep; run;
    try (intros [= <- _]; congruence).
  destruct (re_search_braces text) as [fragment|] eqn:Ef; run;
    [|intros [= <- _]; congruence].
  destruct (json_loads world fragment) as [v'|e] eqn:El;
    [|intros [= <- _]; congruence].
  intros [= <- <-] _. exists resp, envelope, text, fragment. auto 10.
Qed.

(** X6: an analysis that differs from the rule-based one comes from a
    configured key, a request that was answered without an HTTP error, a
    body and a fragment that both parsed. *)
Theorem model_answer_needs_success (b : backend) (company_name : cell)
  (content : string) (w w' : W) (v : value) :
  analyze world self b company_name content w = (Ok v, w') ->
  v <> VDict (fallback_analysis company_name content) ->
  configured (key_of self b) = true /\
  answered world self b company_name content w v w'.
Proof.
  rewrite analyze_unfold. unfold answered. intros E Hv.
  destruct b; cbn [key_of reply_of].
  - destruct (configured (gemini_api_key self));
      [|injection E as <- _; congruence].
    split; [reflexivity|]. apply (backed_success _ _ _ _ _ _ E Hv).
  - destruct (configured (openai_api_key self));
      [|injection E as <- _; congruence].
    split; [reflexivity|]. apply (backed_success _ _ _ _ _ _ E Hv).
Qed.

End Answers.

Lemma model_answer_needs_success_witness :
  answered (Script.world Scenario.empty_object_reply) Scenario.gemini_only
    Gemini (Str "Acme") "We bake bread" [] (VDict [])
    [Script.Post (gemini_url Scenario.gemini_only)].
Proof.
  apply (model_answer_needs_success
           (Script.world Scenario.empty_object_reply) Scenario.gemini_only
           Gemini (Str "Acme") "We bake bread" []
           [Script.Post (gemini_url Scenario.gemini_only)] (VDict [])).
  - reflexivity.
  - discriminate.
Defined.

(** ** More on enriching one company *)

Section EnrichMore.

Context {W : Type} (world : World W) (self : CompanyEnricher).

Ltac run_local :=
  cbv beta iota delta
    [bind lift ret raise try_except try_except_only
     on_world set_result update_result get_result run_local sleep fst snd].

Lemma find_company_website_nonempty (name url : string) (w w1 : W) :
  find_company_website world (Str name) w = (Ok url, w1) ->
  PyStr.nonempty url = true.
Proof.
  intros Hfind.
  destruct (find_company_website_of_string world name w)
    as (url' & w1' & E & Hurl & _).
  rewrite Hfind in E. injection E as <- <-. exact Hurl.
Qed.

(** X7: the record is the name, the URL found and the fields of the
    analysis; a field the analysis lacks gets its default, and the analysis
    can neither change the name or the website nor add a field. *)
Theorem enrich_company_merges_analysis
  (name url content : string) (analysis : Dict.t) (w w1 w2 w3 : W) :
  find_company_website world (Str name) w = (Ok url, w1) ->
  scrape_website_content world url w1 = (Ok content, w2) ->
  PyStr.nonempty content = true ->
  chosen_analysis world self (Str name) content w2 = (Ok (VDict analysis), w3)
  ->
  enrich_company world self (Str name) w
  = (Ok (record_with (VStr name) (VStr url) analysis),
     time_sleep world 500 w3).
Proof.
  intros Hfind Hscrape Hcontent Hanalysis.
  pose proof (find_company_website_nonempty _ _ _ _ Hfind) as Hurl.
  unfold chosen_analysis in Hanalysis.
  cbv beta iota delta [ret] in Hanalysis.
  unfold enrich_company, enrich_steps. run_local.
  rewrite Hfind, Hurl, Hscrape, Hcontent, Hanalysis. reflexivity.
Qed.

(** X8: without scraped content the name itself is analysed by the rules,
    whatever keys are configured, and no backend is asked. *)
Theorem empty_content_uses_name (name url : string) (w w1 w2 : W) :
  find_company_website world (Str name) w = (Ok url, w1) ->
  scrape_website_content world url w1 = (Ok EmptyString, w2) ->
  enrich_company world self (Str name) w
  = (Ok (record_with (VStr name) (VStr url)
           (fallback_analysis (Str name) name)),
     time_sleep world 500 w2).
Proof.
  intros Hfind Hscrape.
  pose proof (find_company_website_nonempty _ _ _ _ Hfind) as Hurl.
  unfold enrich_company, enrich_steps. run_local.
  rewrite Hfind, Hurl, Hscrape. reflexivity.
Qed.

(** X9: with no key configured the record and the final state do not depend
    on how POST requests are answered: none is made. *)
Theorem no_key_no_request
  (post : string -> list (string * string) -> value -> M W response)
  (company_name : cell) (w : W) :
  configured (gemini_api_key self) = false ->
  configured (openai_api_key self) = false ->
  enrich_company (with_post world post) self company_name w
  = enrich_company world self company_name w.
Proof.
  intros Hg Ho. unfold enrich_company, enrich_steps.
  rewrite Hg, Ho. reflexivity.
Qed.

(** X10: a configured Gemini key decides: the OpenAI key is never read. *)
Theorem gemini_key_shadows_openai_key
  (other : option string) (company_name : cell) (w : W) :
  configured (gemini_api_key self) = true ->
  enrich_company world
    {| gemini_api_key := gemini_api_key self; openai_api_key := other |}
    company_name w
  = enrich_company world self company_name w.
Proof.
  intros Hg. unfold enrich_company, enrich_steps. cbn [gemini_api_key].
  rewrite Hg. unfold analyze_with_gemini. cbn [gemini_api_key].
  rewrite Hg. reflexivity.
Qed.

Lemma backed_dict (post : M W response) (pick : value -> outcome value)
  (otherwise : Dict.t) (w : W) :
  (forall text v,
     PyStr.startswith "{" text = true -> json_loads world text = Ok v ->
     exists d, v = VDict d) ->
  exists d w', backed world post pick (VDict otherwise) w = (Ok (VDict d), w').
Proof.
  intros Hjson.
  destruct (backed_cases world post pick (VDict otherwise) w)
    as (v & w' & E & _).
  assert (Hv : exists d, v = VDict d).
  { destruct v as [| | | | |d]; eauto;
      destruct (backed_success world post pick _ _ _ _ E)
        as (resp & envelope & text & fragment & _ & _ & _ & _ & Hf & Hl);
      try discriminate;
      destruct (Hjson fragment _ (re_search_braces_head _ _ Hf) Hl) as [d Hd];
      discriminate Hd. }
  destruct Hv as [d ->]. eauto.
Qed.

Lemma chosen_analysis_dict (company_name : cell) (content : string) (w : W) :
  (forall text v,
     PyStr.startswith "{" text = true -> json_loads world text = Ok v ->
     exists d, v = VDict d) ->
  exists d w',
    chosen_analysis world self company_name content w = (Ok (VDict d), w').
Proof.
  intros Hjson. unfold chosen_analysis.
  pose proof (analyze_unfold world self Gemini company_name content) as Eg.
  pose proof (analyze_unfold world self OpenAI company_name content) as Eo.
  cbn [analyze] in Eg, Eo.
  destruct (configured (gemini_api_key self)).
  - rewrite Eg. cbn [negb]. apply backed_dict, Hjson.
  - destruct (configured (openai_api_key self)).
    + rewrite Eo. cbn [negb]. apply backed_dict, Hjson.
    + unfold ret. eauto.
Qed.

(** X11: when [json.loads] makes a dict of every text that starts with an
    opening brace, the [try] of [enrich_company] never raises on a [str]:
    its [except] branch is left to names that are not strings. *)
Theorem string_name_never_degrades (name : string) (w : W) :
  (forall text v,
     PyStr.startswith "{" text = true -> json_loads world text = Ok v ->
     exists d, v = VDict d) ->
  fst (enrich_steps world self (Str name) (initial_result (Str name), w))
  = Ok tt /\
  exists url analysis w',
    enrich_company world self (Str name) w
    = (Ok (record_with (VStr name) (VStr url) analysis), w').
Proof.
  intros Hjson.
  destruct (find_company_website_of_string world name w)
    as (url & w1 & Hfind & Hurl & _).
  destruct (scrape_website_content_total world url w1)
    as (content & w2 & Hscrape & _).
  destruct (PyStr.nonempty content) eqn:Hcontent.
  - destruct (chosen_analysis_dict (Str name) content w2 Hjson)
      as (d & w3 & Hanalysis).
    split.
    + unfold chosen_analysis in Hanalysis.
      cbv beta iota delta [ret] in Hanalysis.
      unfold enrich_steps. run_local.
      rewrite Hfind, Hurl, Hscrape, Hcontent, Hanalysis. reflexivity.
    + exists url, d. eexists.
      apply (enrich_company_merges_analysis name url content d w w1 w2 w3);
        assumption.
  - assert (content = EmptyString) as -> by (destruct content;
                                              [reflexivity | discriminate]).
    split.
    + unfold enrich_steps. run_local.
      rewrite Hfind, Hurl, Hscrape. reflexivity.
    + exists url. do 2 eexists.
      apply (empty_content_uses_name name url w w1 w2); assumption.
Qed.

Lemma rejected_last (ps : list string) (p : string) (w w' : W) :
  rejected world (ps ++ [p])%list w w' ->
  exists wa, is_website_accessible world ("https://" ++ p) wa = (Ok false, w').
Proof.
  revert w; induction ps as [|q ps IH]; intros w H.
  - inversion H as [|p' ps' w0 w1 w2 Hp Hrest]; subst.
    inversion Hrest; subst. eauto.
  - inversion H as [|p' ps' w0 w1 w2 Hp Hrest]; subst. eapply IH, Hrest.
Qed.

(** X12: the URL returned is either the first candidate that passed the
    probe, or the best guess, and then it is the URL of the last candidate,
    which the probe has just found inaccessible. *)
Theorem best_guess_was_rejected (name url : string) (w w' : W) :
  find_company_website world (Str name) w = (Ok url, w') ->
  first_passing world (candidates name) w url w' \/
  (url = best_guess name /\
   exists wa, is_website_accessible world url wa = (Ok false, w')).
Proof.
  intros Hfind.
  destruct (find_company_website_of_string world name w)
    as (url' & w1 & E & _ & H).
  rewrite Hfind in E. injection E as <- <-.
  destruct H as [H|[Hrej ->]]; [left; exact H|].
  right. split; [reflexivity|].
  apply (rejected_last
           [ squeeze (PyStr.re_sub_nonword name) ++ ".com";
             squeeze (PyStr.re_sub_nonword name) ++ ".co";
             squeeze (PyStr.re_sub_nonword name) ++ ".io" ]
           ("www." ++ squeeze (PyStr.re_sub_nonword name) ++ ".com") w).
  exact Hrej.
Qed.

(** X13: whatever happens, the last effect of [enrich_company] is its pause
    of half a second. *)
Theorem enrich_company_pauses (company_name : cell) (w : W) :
  exists w1,
    snd (enrich_company world self company_name w) = time_sleep world 500 w1.
Proof.
  unfold enrich_company, enrich_steps. run_local.
  destruct (find_company_website world company_name w) as [[website|e] w1];
    [|eexists; reflexivity].
  destruct (PyStr.nonempty website).
  - destruct (scrape_website_content world website w1) as [[content|e] w2];
      [|eexists; reflexivity].
    destruct (PyStr.nonempty content).
    + match goal with
      | |- context [match ?m w2 with _ => _ end] =>
          destruct (m w2) as [[analysis|e] w3]
      end; [|eexists; reflexivity].
      destruct (analysis_update analysis); eexists; reflexivity.
    + destruct company_name; eexists; reflexivity.
  - destruct company_name; eexists; reflexivity.
Qed.

End EnrichMore.

Lemma enrich_company_merges_analysis_witness :
  exists record w',
    enrich_company (Script.world Cases.bakery) Scenario.gemini_only
      (Str "Acme Bakery") [] = (Ok record, w') /\
    field "company_name" record = Some (VStr "Acme Bakery") /\
    field "website" record = Some (VStr "https://acmebakery.co") /\
    field "industry" record = Some (VStr "Food") /\
    field "company_size" record = Some (VStr "Unknown") /\
    field "summary_from_llm" record = Some VNone /\
    Dict.keys record = seven_fields.
Proof.
  do 2 eexists. split.
  - eapply (enrich_company_merges_analysis (Script.world Cases.bakery)
              Scenario.gemini_only "Acme Bakery"); reflexivity.
  - repeat split; reflexivity.
Defined.

Lemma empty_content_uses_name_witness :
  exists record w',
    enrich_company (Script.world Cases.bakery) Scenario.gemini_only
      (Str "Tech Shop") [] = (Ok record, w') /\
    field "industry" record = Some (VStr "Technology") /\
    field "website" record = Some (VStr "https://www.techshop.com").
Proof.
  do 2 eexists. split.
  - eapply (empty_content_uses_name (Script.world Cases.bakery)
              Scenario.gemini_only "Tech Shop"); reflexivity.
  - split; reflexivity.
Defined.

Lemma no_key_no_request_witness :
  enrich_company
    (with_post (Script.world Cases.bakery) (fun _ _ _ => raise TypeError))
    Scenario.no_keys (Str "Acme Bakery") []
  = enrich_company (Script.world Cases.bakery) Scenario.no_keys
      (Str "Acme Bakery") [].
Proof.
  apply (no_key_no_request (Script.world Cases.bakery) Scenario.no_keys);
    reflexivity.
Defined.

Lemma gemini_key_shadows_openai_key_witness :
  enrich_company (Script.world Cases.bakery)
    {| gemini_api_key := Some "key"; openai_api_key := Some "other" |}
    (Str "Acme Bakery") []
  = enrich_company (Script.world Cases.bakery) Scenario.gemini_only
      (Str "Acme Bakery") [].
Proof.
  apply (gemini_key_shadows_openai_key (Script.world Cases.bakery)
           Scenario.gemini_only (Some "other")).
  reflexivity.
Defined.

Lemma string_name_never_degrades_witness :
  fst (enrich_steps (Script.world Cases.bakery) Scenario.gemini_only
         (Str "Acme Bakery") (initial_result (Str "Acme Bakery"), []))
  = Ok tt.
Proof.
  apply (string_name_never_degrades (Script.world Cases.bakery)
           Scenario.gemini_only "Acme Bakery" []).
  intros text v _. cbn [json_loads Script.world Script.documents Cases.bakery].
  cbn [Script.find].
  destruct (String.eqb text "envelope"); [intros [= <-]; eexists; reflexivity|].
  destruct (String.eqb text "{analysis}"); [intros [= <-]; eexists; reflexivity|].
  discriminate.
Defined.

Lemma best_guess_was_rejected_witness :
  exists wa w',
    is_website_accessible (Script.world Cases.bakery)
      "https://www.techshop.com" wa = (Ok false, w').
Proof.
  destruct (best_guess_was_rejected (Script.world Cases.bakery)
              "Tech Shop" "https://www.techshop.com" []
              [ Script.Head "https://www.techshop.com";
                Script.Head "https://techshop.io";
                Script.Head "https://techshop.co";
                Script.Head "https://techshop.com" ] eq_refl)
    as [H|[_ [wa H]]].
  - exfalso. destruct H as (before & p & after & wp & _ & _ & _ & H).
    vm_compute in H. discriminate H.
  - eauto.
Defined.

(** ** More on the batch runner *)

Section BatchMore.

Context {W : Type} (world : World W) (self : CompanyEnricher).

(** X14: a missing input file makes [process_csv] return None; any other
    error of reading is raised to the caller; either way nothing else is
    done. *)
Theorem process_csv_unreadable_input
  (input_file : string) (output_file : option string) (e : exn) (w w1 : W) :
  read_csv world input_file w = (Raise e, w1) ->
  process_csv world self input_file output_file w
  = (match e with
     | FileNotFoundError => Ok None
     | _ => Raise e
     end, w1).
Proof.
  intros Hread. unfold process_csv.
  cbv beta iota delta [bind lift ret raise try_except try_except_only].
  rewrite Hread. destruct e; reflexivity.
Qed.

(** X15: a table with the column and no rows gives a frame without any
    column: the output file does not even name the seven fields. *)
Theorem process_csv_no_rows
  (input_file output : string) (df : table) (w w1 w2 : W) :
  read_csv world input_file w = (Ok df, w1) ->
  has_column "company_name" df = true ->
  rows df = [] ->
  to_csv world {| fcolumns := []; frows := [] |} output w1 = (Ok tt, w2) ->
  process_csv world self input_file (Some output) w
  = (Ok (Some {| fcolumns := []; frows := [] |}), w2).
Proof.
  intros Hread Hcol Hrows Hwrite. unfold process_csv.
  cbv beta iota delta [bind lift ret raise try_except try_except_only].
  rewrite Hread, Hcol. unfold iterrows. rewrite Hrows.
  cbn [negb iterrows_from enrich_rows].
  cbv beta iota delta [ret].
  change (DataFrame []) with {| fcolumns := []; frows := [] |}.
  rewrite Hwrite. reflexivity.
Qed.

(** X16: when writing the output file fails, the frame is written once more
    under "enriched_companies_backup_<clock>.csv"; if that works the frame
    is returned, otherwise the error of the second write is raised and the
    frame is lost. *)
Theorem process_csv_backup_write
  (input_file output : string) (df : table) (records : list Dict.t)
  (e : exn) (now : Z) (w w1 w2 w3 w4 : W) :
  read_csv world input_file w = (Ok df, w1) ->
  has_column "company_name" df = true ->
  enrich_rows world self df (iterrows df) [] w1 = (Ok records, w2) ->
  to_csv world (DataFrame records) output w2 = (Raise e, w3) ->
  time_time world w3 = (now, w4) ->
  process_csv world self input_file (Some output) w
  = match to_csv world (DataFrame records)
            ("enriched_companies_backup_" ++ PyStr.of_Z now ++ ".csv") w4
    with
    | (Ok _, w5) => (Ok (Some (DataFrame records)), w5)
    | (Raise e2, w5) => (Raise e2, w5)
    end.
Proof.
  intros Hread Hcol Hrows Hwrite Hclock. unfold process_csv.
  cbv beta iota delta [bind lift ret raise try_except try_except_only].
  rewrite Hread, Hcol. cbn [negb]. rewrite Hrows, Hwrite, Hclock.
  destruct (to_csv world (DataFrame records)
              ("enriched_companies_backup_" ++ PyStr.of_Z now ++ ".csv") w4)
    as [[[]|e2] w5]; reflexivity.
Qed.

End BatchMore.

Lemma process_csv_unreadable_input_witness :
  process_csv (Script.world Scenario.disk) Scenario.no_keys "nowhere.csv"
    None []
  = (Ok None, [Script.ReadCsv "nowhere.csv"]).
Proof.
  apply (process_csv_unreadable_input (Script.world Scenario.disk)
           Scenario.no_keys "nowhere.csv" None FileNotFoundError).
  reflexivity.
Defined.

Lemma process_csv_backup_write_witness :
  exists e w',
    process_csv (Script.world Cases.bakery) Scenario.no_keys "leads.csv"
      (Some "out.csv") [] = (Raise e, w').
Proof.
  do 2 eexists.
  erewrite (process_csv_backup_write (Script.world Cases.bakery)
              Scenario.no_keys "leads.csv" "out.csv");
    reflexivity.
Defined.

Lemma process_csv_no_rows_witness :
  process_csv (Script.world Cases.shelf) Scenario.no_keys "empty.csv"
    (Some "out.csv") []
  = (Ok (Some {| fcolumns := []; frows := [] |}),
     [ Script.WriteCsv "out.csv" {| fcolumns := []; frows := [] |};
       Script.ReadCsv "empty.csv" ]).
Proof.
  apply (process_csv_no_rows (Script.world Cases.shelf) Scenario.no_keys
           "empty.csv" "out.csv" Cases.header_only [] 
           [Script.ReadCsv "empty.csv"]);
    reflexivity.
Defined.

(** ** The batch loop of the web interface *)

Section WebBatchFacts.

Context {W : Type} (world : World W) (describe : exn -> string).

Lemma error_record_shaped (company_name : cell) (msg : string) :
  shaped company_name (error_record company_name msg).
Proof. do 6 eexists. reflexivity. Qed.

Lemma enricher_outcome (e : enricher) (company_name : cell) (w : W) :
  exists w',
    (exists record,
       enricher_enrich_company world e company_name w = (Ok record, w') /\
       shaped company_name record) \/
    (exists err,
       enricher_enrich_company world e company_name w = (Raise err, w')).
Proof.
  destruct e as [self|]; cbn [enricher_enrich_company].
  - destruct (enrich_company_shape world self company_name w)
      as (website & industry & size & summary & target & pitch & w' & E).
    exists w'. left. eexists. split; [exact E|]. do 6 eexists. reflexivity.
  - unfold fallback_enrich_company, sleep, bind, ret, raise.
    destruct company_name as [name|shown]; eexists.
    + left. eexists. split; [reflexivity|]. do 6 eexists. reflexivity.
    + right. eexists. reflexivity.
Qed.

Lemma process_row_adds (df : table) (e : enricher) (show_progress : bool)
  (delay : Z) (row : list cell) (company_name : cell)
  (enriched_results : list Dict.t) (w : W) :
  row_get df row "company_name" = Ok company_name ->
  exists added w',
    process_row world describe df e show_progress delay row
      (enriched_results, w)
    = (Ok tt, ((enriched_results ++ added)%list, w')) /\
    turn_of show_progress company_name added.
Proof.
  intros Hget. unfold process_row. rewrite Hget.
  cbv beta iota delta
    [bind lift ret raise try_except in_world append_result fst snd].
  destruct (enricher_outcome e company_name w)
    as (w1 & [(record & -> & Hshape)|(err & ->)]).
  2: { exists [error_record company_name (describe err)], w1.
       split; [reflexivity|]. split; [|left; reflexivity].
       constructor; [apply error_record_shaped | constructor]. }
  destruct show_progress.
  - destruct (show_result record) as [[]|err] eqn:Eshow.
    + exists [record]. destruct (Z.ltb 0 delay); eexists;
        (split; [reflexivity|]);
        (split; [constructor; [exact Hshape | constructor]
                | left; reflexivity]).
    + exists [record; error_record company_name (describe err)], w1.
      rewrite <- app_assoc. split; [reflexivity|]. split.
      * constructor; [exact Hshape|].
        constructor; [apply error_record_shaped | constructor].
      * right. split; [reflexivity|]. do 2 eexists.
        split; [reflexivity|]. rewrite Eshow. discriminate.
  - exists [record]. destruct (Z.ltb 0 delay); eexists;
      (split; [reflexivity|]);
      (split; [constructor; [exact Hshape | constructor]
              | left; reflexivity]).
Qed.

Lemma progress_bar_range (fits_unit : string -> nat -> bool)
  (position total_companies : nat) :
  position < total_companies ->
  progress_bar fits_unit (range_index position) total_companies = Ok tt.
Proof.
  intros H. unfold progress_bar, range_index.
  replace (0 <=? Z.of_nat position + 1)%Z with true
    by (symmetry; apply Z.leb_le; lia).
  replace (Z.of_nat position + 1 <=? Z.of_nat total_companies)%Z with true
    by (symmetry; apply Z.leb_le; lia).
  reflexivity.
Qed.

Section WebLoopFacts.

Context (fits_unit : string -> nat -> bool).

Lemma process_rows_adds (df : table) (e : enricher) (show_progress : bool)
  (delay : Z) (total_companies : nat) (todo : list (label * list cell))
  (enriched_results : list Dict.t) (w : W) :
  has_column "company_name" df = true ->
  Forall (fun turn =>
            progress_bar fits_unit (fst turn) total_companies = Ok tt) todo ->
  exists groups w',
    process_rows world describe fits_unit df e show_progress delay
      total_companies todo (enriched_results, w)
    = (Ok tt, ((enriched_results ++ concat groups)%list, w')) /\
    Forall2 (fun turn added =>
               exists name,
                 row_get df (snd turn) "company_name" = Ok name /\
                 turn_of show_progress name added)
            todo groups.
Proof.
  intros Hcol Hbars. destruct (index_of_found _ _ Hcol) as [i Hi].
  revert enriched_results w.
  induction Hbars as [|[idx row] rest Hbar _ IH]; intros enriched_results w.
  - exists [], w. simpl. rewrite app_nil_r. split; [reflexivity|constructor].
  - assert (Hget : row_get df row "company_name"
                   = Ok (nth i row (Num "nan")))
      by (unfold row_get; rewrite Hi; reflexivity).
    cbn [fst] in Hbar.
    destruct (process_row_adds df e show_progress delay row _
                enriched_results w Hget) as (added & w1 & Hrow & Hturn).
    destruct (IH (enriched_results ++ added)%list w1)
      as (groups & w2 & Hrest & Hall).
    exists (added :: groups), w2. split.
    + cbn [process_rows]. unfold process_turn. rewrite Hget, Hbar.
      cbv beta iota delta [bind lift]. rewrite Hrow, Hrest.
      cbn [concat]. rewrite app_assoc. reflexivity.
    + constructor; [|exact Hall]. eauto.
Qed.

Lemma process_rows_numbered (df : table) (e : enricher)
  (show_progress : bool) (delay : Z) (batch_size : nat) (w : W) :
  has_column "company_name" df = true ->
  numbered df ->
  exists groups w',
    process_rows world describe fits_unit df e show_progress delay
      (List.length (firstn batch_size (iterrows df)))
      (firstn batch_size (iterrows df)) ([], w)
    = (Ok tt, (concat groups, w')) /\
    Forall2 (fun row added =>
               exists name,
                 row_get df row "company_name" = Ok name /\
                 turn_of show_progress name added)
            (firstn batch_size (rows df)) groups.
Proof.
  intros Hcol Hnumbered.
  assert (Hhead : firstn batch_size (iterrows df)
                  = iterrows_from df 0 (firstn batch_size (rows df)))
    by apply iterrows_from_firstn.
  destruct (process_rows_adds df e show_progress delay
              (List.length (firstn batch_size (iterrows df)))
              (firstn batch_size (iterrows df)) [] w Hcol)
    as (groups & w' & Hrun & Hall).
  { assert (Htotal : List.length (firstn batch_size (iterrows df))
                     = List.length (firstn batch_size (rows df)))
      by (rewrite Hhead; apply iterrows_from_length).
    rewrite Htotal, Hhead.
    apply (iterrows_from_all
             (fun idx =>
                progress_bar fits_unit idx
                  (List.length (firstn batch_size (rows df))) = Ok tt)).
    intros i Hi. rewrite Hnumbered.
    - apply progress_bar_range. lia.
    - rewrite length_firstn in Hi. lia. }
  exists groups, w'. split; [exact Hrun|].
  apply (Forall2_turns
           (fun row added =>
              exists name,
                row_get df row "company_name" = Ok name /\
                turn_of show_progress name added)) in Hall.
  rewrite Hhead, iterrows_from_rows in Hall. exact Hall.
Qed.

(** X17: given the column and rows numbered 0, 1, 2, ..., the loop of
    [process_companies] ends without raising; it handles the first
    [batch_size] rows in order, and each row adds either one record, or,
    with live progress on, two: the enriched record that could not be
    shown and the error record.  Every record has the seven fields and the
    name of its row.  So a row can appear twice in [enriched_results]. *)
Theorem process_companies_records (df : table) (e : enricher)
  (batch_size : nat) (show_progress : bool) (delay : Z) (w : W) :
  has_column "company_name" df = true ->
  numbered df ->
  exists groups,
    fst (process_companies world describe fits_unit df e batch_size
           show_progress delay w)
    = Ok (concat groups) /\
    Forall2 (fun row added =>
               exists name,
                 row_get df row "company_name" = Ok name /\
                 turn_of show_progress name added)
            (firstn batch_size (rows df)) groups /\
    Nat.min batch_size (List.length (rows df))
    <= List.length (concat groups)
    <= 2 * Nat.min batch_size (List.length (rows df)).
Proof.
  intros Hcol Hnumbered. unfold process_companies.
  destruct (process_rows_numbered df e show_progress delay batch_size w
              Hcol Hnumbered)
    as (groups & w' & -> & Hall).
  exists groups. split; [reflexivity|]. split; [exact Hall|].
  rewrite <- (length_firstn batch_size (rows df)).
  clear -Hall. induction Hall as [|row added todo groups H _ IH].
  - simpl. lia.
  - cbn [concat]. rewrite length_app. cbn [List.length].
    destruct H as (name & _ & _ & [H|(_ & record & msg & -> & _)]).
    + lia.
    + simpl. lia.
Qed.

(** X18: given the column and rows numbered 0, 1, 2, ..., with live
    progress off the loop of [process_companies] leaves exactly one record
    for each of the first [batch_size] rows, in the order of the rows. *)
Theorem process_companies_quiet (df : table) (e : enricher)
  (batch_size : nat) (delay : Z) (w : W) :
  has_column "company_name" df = true ->
  numbered df ->
  exists records,
    fst (process_companies world describe fits_unit df e batch_size false
           delay w)
    = Ok records /\
    Forall2 (fun row record =>
               exists name,
                 row_get df row "company_name" = Ok name /\
                 field "company_name" record = Some (value_of_cell name) /\
                 Dict.keys record = seven_fields)
            (firstn batch_size (rows df)) records /\
    List.length records = Nat.min batch_size (List.length (rows df)).
Proof.
  intros Hcol Hnumbered. unfold process_companies.
  destruct (process_rows_numbered df e false delay batch_size w
              Hcol Hnumbered)
    as (groups & w' & -> & Hall).
  exists (concat groups). split; [reflexivity|].
  assert (H : Forall2 (fun row record =>
               exists name,
                 row_get df row "company_name" = Ok name /\
                 field "company_name" record = Some (value_of_cell name) /\
                 Dict.keys record = seven_fields)
            (firstn batch_size (rows df)) (concat groups)).
  { clear -Hall. induction Hall as [|row added todo groups H _ IH].
    - constructor.
    - destruct H as (name & Hget & Hshape & [Hone|(Hno & _)]);
        [|discriminate].
      destruct added as [|record [|x rest]]; try discriminate.
      cbn [concat app]. constructor; [|exact IH].
      inversion Hshape as [|? ? Hs _]; subst.
      destruct (shaped_keys name record Hs). eauto. }
  split; [exact H|].
  rewrite <- (Forall2_length H). apply length_firstn.
Qed.

(** X26: when the first row has a label that is no number (a [str], for
    a line with one field more than the header), [process_companies]
    raises TypeError at the progress bar of the first turn: nothing has
    been asked of the enricher and there is no record. *)
Theorem process_companies_text_label (df : table) (e : enricher)
  (batch_size : nat) (show_progress : bool) (delay : Z) (w : W) :
  has_column "company_name" df = true ->
  rows df <> [] ->
  0 < batch_size ->
  numeric (index df 0) = false ->
  process_companies world describe fits_unit df e batch_size show_progress
    delay w
  = (Raise TypeError, w).
Proof.
  intros Hcol Hrows Hbatch Hlabel. unfold process_companies, iterrows.
  destruct (index_of_found _ _ Hcol) as [i Hi].
  destruct (rows df) as [|row rest]; [congruence|].
  destruct batch_size as [|n]; [lia|].
  cbn [iterrows_from firstn process_rows]. unfold process_turn.
  assert (Hget : row_get df row "company_name" = Ok (nth i row (Num "nan")))
    by (unfold row_get; rewrite Hi; reflexivity).
  rewrite Hget.
  assert (Hbar : forall total,
             progress_bar fits_unit (index df 0) total = Raise TypeError)
    by (intros total; destruct (index df 0); try discriminate Hlabel;
        reflexivity).
  rewrite Hbar. reflexivity.
Qed.

End WebLoopFacts.

(** X19: with live progress on, a record whose summary or pitch cannot be
    shown (a summary that is null or a number, say) is kept, and the error
    record for the same row is added after it; the pause is skipped. *)
Theorem unshowable_record_is_doubled (df : table) (e : enricher)
  (delay : Z) (row : list cell) (company_name : cell) (record : Dict.t)
  (err : exn) (enriched_results : list Dict.t) (w w1 : W) :
  row_get df row "company_name" = Ok company_name ->
  enricher_enrich_company world e company_name w = (Ok record, w1) ->
  show_result record = Raise err ->
  process_row world describe df e true delay row (enriched_results, w)
  = (Ok tt,
     ((enriched_results
       ++ [record; error_record company_name (describe err)])%list, w1)).
Proof.
  intros Hget Henrich Hshow. unfold process_row. rewrite Hget.
  cbv beta iota delta
    [bind lift ret raise try_except in_world append_result fst snd].
  rewrite Henrich, Hshow. rewrite <- app_assoc. reflexivity.
Qed.

End WebBatchFacts.

Lemma process_companies_records_witness :
  exists groups,
    fst (process_companies (Script.world Cases.bakery) Cases.describe
           Cases.fits_unit Scenario.leads
           (RealEnricher Scenario.gemini_only) 5 true 1000 [])
    = Ok (concat groups) /\
    List.length (concat groups) = 3.
Proof.
  destruct (process_companies_records (Script.world Cases.bakery)
              Cases.describe Cases.fits_unit Scenario.leads
              (RealEnricher Scenario.gemini_only) 5 true 1000 [] eq_refl)
    as (groups & Hrun & _ & _).
  { intros position _. reflexivity. }
  exists groups. split; [exact Hrun|].
  remember (concat groups) as records eqn:Hrecords. clear Hrecords.
  vm_compute in Hrun. injection Hrun as <-. reflexivity.
Defined.

Lemma process_companies_quiet_witness :
  exists records,
    fst (process_companies (Script.world Cases.bakery) Cases.describe
           Cases.fits_unit Scenario.leads FallbackEnricher 1 false 0 [])
    = Ok records /\
    List.length records = 1.
Proof.
  destruct (process_companies_quiet (Script.world Cases.bakery)
              Cases.describe Cases.fits_unit Scenario.leads FallbackEnricher
              1 0 [] eq_refl)
    as (records & Hrun & _ & Hlen).
  { intros position _. reflexivity. }
  exists records. split; [exact Hrun | exact Hlen].
Defined.

Lemma process_companies_text_label_witness :
  process_companies (Script.world Cases.shelf) Cases.describe
    Cases.fits_unit Cases.unquoted FallbackEnricher 5 true 1000 []
  = (Raise TypeError, []).
Proof.
  apply (process_companies_text_label (Script.world Cases.shelf)
           Cases.describe Cases.fits_unit Cases.unquoted FallbackEnricher
           5 true 1000 []).
  - reflexivity.
  - discriminate.
  - lia.
  - reflexivity.
Defined.

Lemma unshowable_record_is_doubled_witness :
  exists record w1,
    process_row (Script.world Cases.bakery) Cases.describe Scenario.leads
      (RealEnricher Scenario.gemini_only) true 1000
      [Str "Acme Bakery"; Str "Paris"] ([], [])
    = (Ok tt,
       ([record;
         error_record (Str "Acme Bakery")
           "object of type 'NoneType' has no len()"], w1)) /\
    field "summary_from_llm" record = Some VNone.
Proof.
  do 2 eexists. split.
  - eapply (unshowable_record_is_doubled (Script.world Cases.bakery)
              Cases.describe Scenario.leads
              (RealEnricher Scenario.gemini_only) 1000
              [Str "Acme Bakery"; Str "Paris"] (Str "Acme Bakery") _
              TypeError []);
      reflexivity.
  - reflexivity.
Defined.

(** ** Keys left blank, and the shape of the URL *)

Section Shape.

Context {W : Type} (world : World W).

(** X20: with both key boxes left blank, whichever enricher is created never
    makes a POST request. *)
Theorem blank_keys_never_post (imported : bool)
  (post : string -> list (string * string) -> value -> M W response)
  (company_name : cell) (w : W) :
  enricher_enrich_company (with_post world post)
    (create_enricher_instance imported EmptyString EmptyString)
    company_name w
  = enricher_enrich_company world
      (create_enricher_instance imported EmptyString EmptyString)
      company_name w.
Proof.
  destruct imported; cbn [create_enricher_instance enricher_enrich_company
                            PyStr.nonempty].
  - apply no_key_no_request; reflexivity.
  - reflexivity.
Qed.

Lemma replace_blank_lacks (s : string) :
  lacks 32 (PyStr.replace " " EmptyString s) = true.
Proof.
  unfold PyStr.replace, lacks. induction s as [|c s IH]; [reflexivity|].
  cbn [PyStr.replace_from prefix].
  destruct (ascii_dec " " c) as [<-|Hc].
  - destruct s; exact IH.
  - cbn [all_chars]. rewrite IH, andb_true_r.
    apply negb_true_iff, Nat.eqb_neq. intros E. apply Hc.
    unfold PyStr.code in E.
    rewrite <- (ascii_nat_embedding c), E. reflexivity.
Qed.

Lemma candidate_lacks_blank (name p : string) :
  In p (candidates name) -> lacks 32 p = true.
Proof.
  unfold candidates, squeeze. cbv zeta. intros H.
  assert (Hs : lacks 32 (PyStr.replace " " EmptyString
                           (PyStr.lower (PyStr.re_sub_nonword name)))
               = true) by apply replace_blank_lacks.
  unfold lacks in *.
  destruct H as [<-|[<-|[<-|[<-|[]]]]];
    rewrite ?all_chars_app, Hs; reflexivity.
Qed.

(** X21: the URL found for a [str] starts with "https://" and holds no
    blank. *)
Theorem website_url_shape (name url : string) (w w' : W) :
  find_company_website world (Str name) w = (Ok url, w') ->
  PyStr.startswith "https://" url = true /\ lacks 32 url = true.
Proof.
  intros Hfind.
  assert (Hcand : forall p, In p (candidates name) ->
                    PyStr.startswith "https://" ("https://" ++ p) = true /\
                    lacks 32 ("https://" ++ p) = true).
  { intros p Hp. split; [apply prefix_app|].
    unfold lacks. rewrite all_chars_app.
    apply (candidate_lacks_blank name p Hp). }
  destruct (best_guess_was_rejected world name url w w' Hfind)
    as [(before & p & after & wp & Hsplit & -> & _)|[-> _]].
  - apply Hcand. rewrite Hsplit. apply in_or_app. right. left. reflexivity.
  - apply (Hcand ("www." ++ squeeze (PyStr.re_sub_nonword name) ++ ".com")).
    unfold candidates. cbv zeta. simpl. auto.
Qed.

End Shape.

Lemma website_url_shape_witness :
  PyStr.startswith "https://" "https://acmebakery.co" = true /\
  lacks 32 "https://acmebakery.co" = true.
Proof.
  apply (website_url_shape (Script.world Cases.bakery) "Acme Bakery"
           "https://acmebakery.co" []
           [ Script.Head "https://acmebakery.co";
             Script.Head "https://acmebakery.com" ]).
  reflexivity.
Defined.

(** ** Failures of the network *)

Section Failures.

Context {W : Type} (world : World W) (self : CompanyEnricher).

Lemma backed_failed (post : M W response) (pick : value -> outcome value)
  (otherwise : value) (w w1 : W) :
  (exists e, post w = (Raise e, w1)) \/
  (exists resp,
     post w = (Ok resp, w1) /\
     ((exists e, raise_for_status resp = Raise e) \/
      (raise_for_status resp = Ok tt /\
       ((exists e, json_loads world (body resp) = Raise e) \/
        (exists envelope,
           json_loads world (body resp) = Ok envelope /\
           ((exists e, pick envelope = Raise e) \/
            (exists reply,
               pick envelope = Ok reply /\
               (forall text, reply <> VStr text)) \/
            (exists text,
               pick envelope = Ok (VStr text) /\
               re_search_braces text = None))))))) ->
  backed world post pick otherwise w = (Ok otherwise, w1).
Proof.
  unfold backed. run.
  intros [[e ->]|(resp & -> & H)]; [reflexivity|].
  destruct H as [[e ->]|(-> & H)]; [reflexivity|].
  destruct H as [[e ->]|(envelope & -> & H)]; [reflexivity|].
  destruct H as [[e ->]|[(reply & -> & Hreply)|(text & -> & Hnone)]].
  - reflexivity.
  - destruct reply; run; try reflexivity. exfalso. eapply Hreply; reflexivity.
  - run. rewrite Hnone. reflexivity.
Qed.

(** X22: every failure on the way to the fragment (a request that raises,
    an HTTP error status, a body that is no JSON, an answer without the
    reply, a reply that is no text or holds no braces) ends in exactly the
    rule-based analysis; nothing is raised. *)
Theorem backend_failure_gives_fallback (b : backend) (company_name : cell)
  (content : string) (w w1 : W) :
  failed world self b company_name content w w1 ->
  analyze world self b company_name content w
  = (Ok (VDict (fallback_analysis company_name content)),
     if configured (key_of self b) then w1 else w).
Proof.
  intros H. rewrite analyze_unfold.
  assert (Hb : forall pick,
             pick = reply_of b ->
             backed world (request world self b company_name content) pick
               (VDict (fallback_analysis company_name content)) w
             = (Ok (VDict (fallback_analysis company_name content)), w1)).
  { intros pick ->. apply backed_failed.
    destruct H as [e w1 H|resp e w1 H1 H2|resp e w1 H1 H2 H3
                  |resp envelope e w1 H1 H2 H3 H4
                  |resp envelope reply w1 H1 H2 H3 H4 H5
                  |resp envelope text w1 H1 H2 H3 H4 H5].
    - left. eauto.
    - right. exists resp. split; [exact H1|]. left. eauto.
    - right. exists resp. split; [exact H1|]. right. split; [exact H2|].
      left. eauto.
    - right. exists resp. split; [exact H1|]. right. split; [exact H2|].
      right. exists envelope. split; [exact H3|]. left. eauto.
    - right. exists resp. split; [exact H1|]. right. split; [exact H2|].
      right. exists envelope. split; [exact H3|]. right. left. eauto.
    - right. exists resp. split; [exact H1|]. right. split; [exact H2|].
      right. exists envelope. split; [exact H3|]. right. right. eauto. }
  destruct b; cbn [key_of].
  - destruct (configured (gemini_api_key self)); cbn [negb];
      [apply (Hb gemini_reply eq_refl) | reflexivity].
  - destruct (configured (openai_api_key self)); cbn [negb];
      [apply (Hb openai_reply eq_refl) | reflexivity].
Qed.

Lemma scrape_of_failed_fetch (url : string) (w1 w2 : W) :
  fetch_failed world url w1 w2 ->
  scrape_website_content world url w1 = (Ok EmptyString, w2).
Proof.
  unfold scrape_website_content. run.
  intros [e w2' ->|resp e w2' -> ->|resp e w2' -> -> ->]; reflexivity.
Qed.

(** X23: when the page cannot be fetched (the request raises, the status
    is an HTTP error, or the parser raises), the record is the name, the
    URL, and the rule-based analysis of the name itself. *)
Theorem unreachable_site_uses_name (name url : string) (w w1 w2 : W) :
  find_company_website world (Str name) w = (Ok url, w1) ->
  fetch_failed world url w1 w2 ->
  enrich_company world self (Str name) w
  = (Ok (record_with (VStr name) (VStr url)
           (fallback_analysis (Str name) name)),
     time_sleep world 500 w2).
Proof.
  intros Hfind Hfetch.
  apply (empty_content_uses_name world self name url w w1 w2 Hfind).
  apply scrape_of_failed_fetch, Hfetch.
Qed.

End Failures.

Lemma backend_failure_gives_fallback_witness :
  analyze (Script.world Scenario.disk) Scenario.gemini_only Gemini
    (Str "Acme") "We bake bread" []
  = (Ok (VDict (fallback_analysis (Str "Acme") "We bake bread")),
     [Script.Post (gemini_url Scenario.gemini_only)]).
Proof.
  apply (backend_failure_gives_fallback (Script.world Scenario.disk)
           Scenario.gemini_only Gemini (Str "Acme") "We bake bread" []
           [Script.Post (gemini_url Scenario.gemini_only)]).
  eapply request_raised. reflexivity.
Defined.

Lemma unreachable_site_uses_name_witness :
  exists record w',
    enrich_company (Script.world Cases.bakery) Scenario.gemini_only
      (Str "Health Hub") [] = (Ok record, w') /\
    field "industry" record = Some (VStr "Healthcare") /\
    field "website" record = Some (VStr "https://www.healthhub.com").
Proof.
  do 2 eexists. split.
  - eapply (unreachable_site_uses_name (Script.world Cases.bakery)
              Scenario.gemini_only "Health Hub");
      [reflexivity | eapply get_raised; reflexivity].
  - split; reflexivity.
Defined.

(** ** The stand-in enricher of the web interface *)

Section StandIn.

Context {W : Type} (world : World W).

(** X24: for a [str] the stand-in enricher pauses, never raises, and
    returns the seven fields in the usual order; apart from the name, every
    field is a non-empty string, the size is always "Medium" and the
    industry is never "Retail".  On a name that is not a [str] it raises
    AttributeError after the pause. *)
Theorem fallback_enricher_record (w : W) :
  (forall name,
     exists record,
       fallback_enrich_company world (Str name) w
       = (Ok record, time_sleep world 500 w) /\
       Dict.keys record = seven_fields /\
       field "company_name" record = Some (VStr name) /\
       Forall (fun k => exists text,
                          field k record = Some (VStr text) /\
                          PyStr.nonempty text = true)
              (tl seven_fields) /\
       field "company_size" record = Some (VStr "Medium") /\
       field "industry" record <> Some (VStr "Retail")) /\
  (forall shown,
     fallback_enrich_company world (Num shown) w
     = (Raise AttributeError, time_sleep world 500 w)).
Proof.
  split; [|reflexivity].
  intros name. eexists. split; [reflexivity|].
  split; [reflexivity|]. split; [reflexivity|].
  assert (Hind : exists text,
             simple_industry (PyStr.lower name) = text /\
             PyStr.nonempty text = true /\ text <> "Retail").
  { unfold simple_industry.
    repeat match goal with
           | |- context [if ?c then _ else _] => destruct c
           end; eexists; (split; [reflexivity|]); split;
      (reflexivity || discriminate). }
  destruct Hind as (industry & Hi & Hne & Hnr).
  split; [|split].
  - cbn [tl seven_fields]. repeat constructor; cbn; eexists;
      (split; [reflexivity|]); try reflexivity.
    + exact (eq_trans (f_equal PyStr.nonempty Hi) Hne).
    + destruct name; reflexivity.
  - reflexivity.
  - cbn. rewrite Hi. intros [= E]. exact (Hnr E).
Qed.

End StandIn.

(** ** Scraped text has its white space normalised *)

Lemma is_blank_spec (c : ascii) :
  is_blank c = if ascii_dec " " c then true else false.
Proof.
  unfold is_blank, PyStr.code. destruct (ascii_dec " " c) as [<-|Hc].
  - reflexivity.
  - apply Nat.eqb_neq. intros E. apply Hc.
    rewrite <- (ascii_nat_embedding c), E. reflexivity.
Qed.

Lemma blank_is_space (c : ascii) :
  is_blank c = true -> PyStr.is_space c = true.
Proof.
  rewrite is_blank_spec. destruct (ascii_dec " " c) as [<-|]; [|discriminate].
  reflexivity.
Qed.

Lemma prefix_two_blanks (c : ascii) (r : string) :
  prefix "  " (String c r) = is_blank c && starts_blank r.
Proof.
  cbn [prefix]. rewrite is_blank_spec.
  destruct (ascii_dec " " c); [|reflexivity].
  destruct r as [|d r]; [reflexivity|].
  cbn [prefix starts_blank]. rewrite is_blank_spec.
  destruct (ascii_dec " " d); [|reflexivity].
  destruct r; reflexivity.
Qed.

Lemma no_double_blank_rev (acc s : string) :
  no_double_blank (PyStr.rev_string acc s)
  = no_double_blank s && no_double_blank acc
    && negb (starts_blank s && starts_blank acc).
Proof.
  revert acc; induction s as [|c s IH]; intros acc.
  - cbn. rewrite andb_true_r. reflexivity.
  - cbn [PyStr.rev_string]. rewrite IH.
    cbn [no_double_blank starts_blank].
    destruct (is_blank c), (starts_blank s), (starts_blank acc),
      (no_double_blank s), (no_double_blank acc); reflexivity.
Qed.

Lemma no_double_blank_piece (cur : string) :
  no_double_blank (PyStr.rev_string EmptyString cur) = no_double_blank cur.
Proof.
  rewrite no_double_blank_rev. cbn.
  destruct (no_double_blank cur), (starts_blank cur); reflexivity.
Qed.

Lemma split2_no_double_blank (cur : string) (skip : bool) (s : string) :
  no_double_blank cur = true ->
  (skip = true -> cur = EmptyString) ->
  (skip = false -> starts_blank cur && starts_blank s = false) ->
  Forall (fun piece => no_double_blank piece = true)
         (PyStr.split2_from cur skip s).
Proof.
  revert cur skip; induction s as [|c s IH]; intros cur skip Hcur Hskip Hj.
  - constructor; [|constructor].
    rewrite no_double_blank_piece. exact Hcur.
  - cbn [PyStr.split2_from]. destruct skip.
    + rewrite (Hskip eq_refl). apply IH; auto.
    + specialize (Hj eq_refl). cbn [starts_blank] in Hj.
      rewrite prefix_two_blanks.
      destruct (is_blank c && starts_blank s) eqn:E.
      * constructor; [|apply IH; auto; discriminate].
        rewrite no_double_blank_piece. exact Hcur.
      * apply IH; [|discriminate|intros _; exact E].
        cbn [no_double_blank]. rewrite Hcur, andb_true_r.
        rewrite andb_comm in Hj. rewrite Hj. reflexivity.
Qed.

Lemma rstrip_head (s : string) (x : ascii) (t : string) :
  PyStr.rstrip s = String x t -> exists t0, s = String x t0.
Proof.
  destruct s as [|c r]; cbn [PyStr.rstrip]; [discriminate|].
  destruct (PyStr.rstrip r).
  - destruct (PyStr.is_space c); [discriminate|]. intros [= <- <-]. eauto.
  - intros [= <- <-]. eauto.
Qed.

Lemma no_double_blank_tail (c : ascii) (r : string) :
  no_double_blank (String c r) = true -> no_double_blank r = true.
Proof. cbn [no_double_blank]. intros H. apply andb_true_iff in H. tauto. Qed.

Lemma no_double_blank_lstrip (s : string) :
  no_double_blank s = true -> no_double_blank (PyStr.lstrip s) = true.
Proof.
  induction s as [|c r IH]; [reflexivity|]. intros H. cbn [PyStr.lstrip].
  destruct (PyStr.is_space c); [|exact H].
  apply IH, (no_double_blank_tail c r H).
Qed.

Lemma no_double_blank_rstrip (s : string) :
  no_double_blank s = true -> no_double_blank (PyStr.rstrip s) = true.
Proof.
  induction s as [|c r IH]; [reflexivity|]. intros H.
  pose proof (IH (no_double_blank_tail c r H)) as Hr.
  cbn [PyStr.rstrip]. destruct (PyStr.rstrip r) as [|x t] eqn:E.
  - destruct (PyStr.is_space c); [reflexivity|].
    cbn. rewrite andb_false_r. reflexivity.
  - destruct (rstrip_head r x t E) as [t0 ->].
    change (negb (is_blank c && is_blank x)
            && no_double_blank (String x t0) = true) in H.
    change (negb (is_blank c && is_blank x)
            && no_double_blank (String x t) = true).
    apply andb_true_iff in H. destruct H as [H _].
    rewrite H, Hr. reflexivity.
Qed.

Lemma starts_clean_lstrip (s : string) :
  starts_clean (PyStr.lstrip s) = true.
Proof.
  induction s as [|c r IH]; [reflexivity|]. cbn [PyStr.lstrip].
  destruct (PyStr.is_space c) eqn:E; [exact IH|].
  cbn [starts_clean]. rewrite E. reflexivity.
Qed.

Lemma starts_clean_rstrip (s : string) :
  starts_clean s = true -> starts_clean (PyStr.rstrip s) = true.
Proof.
  intros H. destruct (PyStr.rstrip s) as [|x t] eqn:E; [reflexivity|].
  destruct (rstrip_head s x t E) as [t0 ->]. exact H.
Qed.

Lemma ends_blank_rstrip (s : string) :
  ends_blank (PyStr.rstrip s) = false.
Proof.
  induction s as [|c r IH]; [reflexivity|]. cbn [PyStr.rstrip].
  destruct (PyStr.rstrip r) as [|x t].
  - destruct (PyStr.is_space c) eqn:E; [reflexivity|].
    cbn [ends_blank]. destruct (is_blank c) eqn:Eb; [|reflexivity].
    rewrite (blank_is_space c Eb) in E. discriminate.
  - exact IH.
Qed.

Lemma starts_clean_not_blank (s : string) :
  starts_clean s = true -> starts_blank s = false.
Proof.
  destruct s as [|c r]; [reflexivity|]. cbn. intros H.
  destruct (is_blank c) eqn:E; [|reflexivity].
  rewrite (blank_is_space c E) in H. discriminate.
Qed.

Lemma no_double_blank_app (a b : string) :
  no_double_blank a = true -> no_double_blank b = true ->
  ends_blank a && starts_blank b = false ->
  no_double_blank (a ++ b) = true.
Proof.
  induction a as [|c a IH]; intros Ha Hb Hj; [exact Hb|].
  change (String c a ++ b) with (String c (a ++ b)).
  cbn [no_double_blank] in Ha |- *.
  apply andb_true_iff in Ha. destruct Ha as [Hc Ha].
  destruct a as [|d a].
  - cbn [append]. cbn [ends_blank] in Hj. rewrite Hj, Hb. reflexivity.
  - rewrite (IH Ha Hb Hj), andb_true_r. exact Hc.
Qed.

Lemma join_tidy (chunks : list string) :
  Forall tidy chunks ->
  no_double_blank (PyStr.join " " chunks) = true /\
  starts_clean (PyStr.join " " chunks) = true.
Proof.
  induction 1 as [|x [|y rest] Hx Hrest IH].
  - split; reflexivity.
  - destruct Hx as (_ & Hnd & Hs & _). split; assumption.
  - change (PyStr.join " " (x :: y :: rest))
      with (x ++ " " ++ PyStr.join " " (y :: rest)).
    destruct Hx as (Hne & Hnd & Hs & He). destruct IH as [IHnd IHs].
    split.
    + apply no_double_blank_app; [exact Hnd | | rewrite He; reflexivity].
      cbn [append no_double_blank].
      rewrite (starts_clean_not_blank _ IHs), andb_false_r, IHnd.
      reflexivity.
    + destruct x; [discriminate Hne | exact Hs].
Qed.

Lemma clean_text_normalised (text : string) :
  no_double_blank (clean_text text) = true /\
  starts_clean (clean_text text) = true.
Proof.
  unfold clean_text. apply join_tidy.
  apply Forall_forall. intros chunk Hin.
  apply filter_In in Hin. destruct Hin as [Hin Hne].
  apply in_flat_map in Hin. destruct Hin as (line & _ & Hin).
  apply in_map_iff in Hin. destruct Hin as (piece & <- & Hpiece).
  assert (Hnd : no_double_blank piece = true).
  { pose proof (split2_no_double_blank EmptyString false line eq_refl) as H.
    rewrite Forall_forall in H. apply H; [discriminate | reflexivity|].
    exact Hpiece. }
  repeat split.
  - exact Hne.
  - apply no_double_blank_rstrip, no_double_blank_lstrip, Hnd.
  - apply starts_clean_rstrip, starts_clean_lstrip.
  - apply ends_blank_rstrip.
Qed.

Lemma take_head (n : nat) (s : string) (x : ascii) (t : string) :
  PyStr.take n s = String x t -> exists t0, s = String x t0.
Proof.
  unfold PyStr.take. destruct n, s; cbn; try discriminate.
  intros [= <- _]. eauto.
Qed.

Lemma no_double_blank_take (n : nat) (s : string) :
  no_double_blank s = true -> no_double_blank (PyStr.take n s) = true.
Proof.
  revert s; induction n as [|n IH]; intros [|c r] H; try reflexivity.
  change (PyStr.take (S n) (String c r)) with (String c (PyStr.take n r)).
  pose proof (IH r (no_double_blank_tail c r H)) as Hr.
  destruct (PyStr.take n r) as [|x t] eqn:E.
  - cbn. rewrite andb_false_r. reflexivity.
  - destruct (take_head n r x t E) as [t0 ->].
    change (negb (is_blank c && is_blank x)
            && no_double_blank (String x t0) = true) in H.
    change (negb (is_blank c && is_blank x)
            && no_double_blank (String x t) = true).
    apply andb_true_iff in H. destruct H as [H _].
    rewrite H, Hr. reflexivity.
Qed.

Lemma starts_clean_take (n : nat) (s : string) :
  starts_clean s = true -> starts_clean (PyStr.take n s) = true.
Proof.
  intros H. destruct (PyStr.take n s) as [|x t] eqn:E; [reflexivity|].
  destruct (take_head n s x t E) as [t0 ->]. exact H.
Qed.

(** X25: the scraped content never holds two blanks in a row and never
    begins with white space. *)
Theorem scrape_website_content_normalised
  {W : Type} (world : World W) (url : string) (w : W) :
  exists text,
    fst (scrape_website_content world url w) = Ok text /\
    no_double_blank text = true /\
    starts_clean text = true.
Proof.
  unfold scrape_website_content, try_except, bind, ret, lift.
  destruct (session_get world url w) as [[r|e] w'];
    [|exists EmptyString; repeat split].
  destruct (raise_for_status r);
    [|exists EmptyString; repeat split].
  destruct (visible_text world (body r)) as [text|e];
    [|exists EmptyString; repeat split].
  destruct (clean_text_normalised text) as [Hnd Hs].
  eexists; split; [reflexivity|].
  destruct (Nat.ltb 2000 (String.length (clean_text text))).
  - split; [apply no_double_blank_take | apply starts_clean_take]; assumption.
  - split; assumption.
Qed.
